(** * Diagnostics core of the SQF runtime: [logging.h]

    A shallow embedding of the logging header of the runtime
    (severity levels, source locations, the message base class, the
    logger with its per-level gates, the emitter capability and the
    catalog of concrete log messages), followed by the properties
    established about it. *)

From Stdlib Require Import Ascii.
From stdpp Require Import base numbers list strings.

Local Open Scope string_scope.

(** ** [enum class loglevel] *)

Module loglevel.

(** The six enumerators, in declaration order. *)
Inductive t := fatal | error | warning | info | verbose | trace.

#[global] Instance t_eq_dec : EqDecision t.
Proof. solve_decision. Defined.

(** The enumerator values: no initialisers, so they count up from 0. *)
Definition underlying (l : t) : Z :=
  match l with
  | fatal => 0
  | error => 1
  | warning => 2
  | info => 3
  | verbose => 4
  | trace => 5
  end.

Definition all : list t := [fatal; error; warning; info; verbose; trace].

End loglevel.

(** [static_cast<size_t>(v)] of an [int] value on a 64-bit target:
    reduction modulo [2^64]. *)
Definition static_cast_size_t (v : Z) : N := Z.to_N (v mod 2 ^ 64).

(** ** [class LogLocationInfo] *)

(** A [size_t] member as the object holds it.  The members [line] and
    [col] have no default member initialiser, so storage that no
    constructor has written holds an indeterminate value. *)
Inductive size_t_cell := Indeterminate | Init (n : N).

(** Reading a cell (lvalue-to-rvalue conversion): defined only for an
    initialised cell. *)
Definition read (c : size_t_cell) : option N :=
  match c with
  | Indeterminate => None
  | Init n => Some n
  end.

Record LogLocationInfo := {
  path : string;
  line : size_t_cell;
  col : size_t_cell
}.

(** The scalar part of the storage an object is constructed in. *)
Record storage := { st_line : size_t_cell; st_col : size_t_cell }.

(** Storage of an automatic or dynamically allocated object. *)
Definition fresh_storage : storage :=
  {| st_line := Indeterminate; st_col := Indeterminate |}.

(** Storage after zero-initialisation. *)
Definition zeroed_storage : storage :=
  {| st_line := Init 0; st_col := Init 0 |}.

(** [LogLocationInfo() = default;]: [path] is default-constructed to the
    empty string; [line] and [col] are not written. *)
Definition LogLocationInfo_default (s : storage) : LogLocationInfo :=
  {| path := ""; line := st_line s; col := st_col s |}.

(** [LogLocationInfo loc;] *)
Definition default_initialized : LogLocationInfo :=
  LogLocationInfo_default fresh_storage.

(** [LogLocationInfo{}]: the default constructor is not user-provided, so
    the object is zero-initialised before the constructor runs. *)
Definition value_initialized : LogLocationInfo :=
  LogLocationInfo_default zeroed_storage.

(** The four position sources of the converting constructors.  Their
    classes are only forward-declared in this header. *)
Module parse.

(** Modelled from the spec: [sqf::parse::position_info], the raw
    position record (path, line, column); its definition is not part
    of this unit. *)
Record position_info := {
  pi_path : string;
  pi_line : N;
  pi_column : N
}.

(** Modelled from the spec: [sqf::parse::preprocessorfileinfo], of which
    only the position of the active include is used. *)
Record preprocessorfileinfo := { active_position : position_info }.

(** Modelled from the spec: [sqf::parse::astnode], of which only the
    start of the span is used. *)
Record astnode := { span_start : position_info }.

End parse.

(** Modelled from the spec: [sqf::instruction], of which only the
    optional back-reference to a debug position is used. *)
Record instruction := { debug_position : option parse.position_info }.

(** Modelled from the spec: [LogLocationInfo(const position_info&)], a
    direct copy of the three fields (the constructor is declared here
    and defined in the implementation file). *)
Definition LogLocationInfo_of_position_info (p : parse.position_info)
  : LogLocationInfo :=
  {| path := parse.pi_path p;
     line := Init (parse.pi_line p);
     col := Init (parse.pi_column p) |}.

(** Modelled from the spec: [LogLocationInfo(const preprocessorfileinfo&)],
    the position of the active include. *)
Definition LogLocationInfo_of_preprocessorfileinfo
    (f : parse.preprocessorfileinfo) : LogLocationInfo :=
  LogLocationInfo_of_position_info (parse.active_position f).

(** Modelled from the spec: [LogLocationInfo(const astnode&)], the start
    of the node's span. *)
Definition LogLocationInfo_of_astnode (n : parse.astnode) : LogLocationInfo :=
  LogLocationInfo_of_position_info (parse.span_start n).

(** Modelled from the spec: [LogLocationInfo(const instruction&)]: the
    debug position when the instruction has one, otherwise the empty
    path with line 0 and column 0. *)
Definition LogLocationInfo_of_instruction (i : instruction) : LogLocationInfo :=
  match debug_position i with
  | Some p => LogLocationInfo_of_position_info p
  | None => {| path := ""; line := Init 0; col := Init 0 |}
  end.

(** An argument of one of the four converting constructors, and the
    location the constructor builds from it. *)
Inductive LocationSource :=
  | FromPreprocessorFileInfo (f : parse.preprocessorfileinfo)
  | FromAstNode (n : parse.astnode)
  | FromPositionInfo (p : parse.position_info)
  | FromInstruction (i : instruction).

Definition build (s : LocationSource) : LogLocationInfo :=
  match s with
  | FromPreprocessorFileInfo f => LogLocationInfo_of_preprocessorfileinfo f
  | FromAstNode n => LogLocationInfo_of_astnode n
  | FromPositionInfo p => LogLocationInfo_of_position_info p
  | FromInstruction i => LogLocationInfo_of_instruction i
  end.

(** ** Payload of the concrete messages *)

(** The member types that occur in the catalog. *)
Inductive FieldType :=
  | Tsize_t              (* size_t *)
  | Tstring              (* std::string *)
  | Tstring_view         (* std::string_view *)
  | Tsqf_type            (* ::sqf::type *)
  | Tvector_sqf_type     (* std::vector<::sqf::type> *)
  | Tvector_size_t       (* std::vector<size_t> *)
  | Tvector_string       (* std::vector<std::string> *)
  | Tchar                (* char *)
  | Tdouble              (* double *)
  | Truntime_error_ref.  (* const std::runtime_error& *)

#[global] Instance FieldType_eq_dec : EqDecision FieldType.
Proof. solve_decision. Defined.

(** ** The catalog of concrete messages

    Every concrete message class declares two private constants,
    [level] and [errorCode], and hands them to its base class in every
    constructor.  The classes are listed per namespace. *)

(** *** [namespace logmessage::preprocessor] *)

Module preprocessor.

(** The classes of the namespace, in declaration order. *)
Inductive kind :=
  | ArgCountMissmatch | UnexpectedDataAfterInclude | RecursiveInclude
  | IncludeFailed | MacroDefinedTwice | MacroNotFound | UnexpectedIfdef
  | UnexpectedIfndef | UnexpectedElse | UnexpectedEndif | MissingEndif
  | UnknownInstruction | EmptyArgument.

#[global] Instance preprocessor_kind_eq_dec : EqDecision kind.
Proof. solve_decision. Defined.

(** [static const loglevel level] of each class. *)
Definition level (k : kind) : loglevel.t :=
  match k with
  | ArgCountMissmatch => loglevel.error
  | UnexpectedDataAfterInclude => loglevel.warning
  | RecursiveInclude => loglevel.error
  | IncludeFailed => loglevel.error
  | MacroDefinedTwice => loglevel.warning
  | MacroNotFound => loglevel.warning
  | UnexpectedIfdef => loglevel.error
  | UnexpectedIfndef => loglevel.error
  | UnexpectedElse => loglevel.error
  | UnexpectedEndif => loglevel.error
  | MissingEndif => loglevel.error
  | UnknownInstruction => loglevel.error
  | EmptyArgument => loglevel.warning
  end.

(** [static const size_t errorCode] of each class. *)
Definition errorCode (k : kind) : N :=
  match k with
  | ArgCountMissmatch => 10001
  | UnexpectedDataAfterInclude => 10002
  | RecursiveInclude => 10003
  | IncludeFailed => 10004
  | MacroDefinedTwice => 10005
  | MacroNotFound => 10006
  | UnexpectedIfdef => 10007
  | UnexpectedIfndef => 10008
  | UnexpectedElse => 10009
  | UnexpectedEndif => 10010
  | MissingEndif => 10011
  | UnknownInstruction => 10012
  | EmptyArgument => 10013
  end.

(** The data members each class adds to its base, in declaration order. *)
Definition fields (k : kind) : list (string * FieldType) :=
  match k with
  | ArgCountMissmatch => []
  | UnexpectedDataAfterInclude => []
  | RecursiveInclude => [("includeTree", Tstring)]
  | IncludeFailed => [("line", Tstring_view); ("exception", Truntime_error_ref)]
  | MacroDefinedTwice => [("macroname", Tstring_view)]
  | MacroNotFound => [("macroname", Tstring_view)]
  | UnexpectedIfdef => []
  | UnexpectedIfndef => []
  | UnexpectedElse => []
  | UnexpectedEndif => []
  | MissingEndif => []
  | UnknownInstruction => [("instruction", Tstring_view)]
  | EmptyArgument => []
  end.

(** The class names. *)
Definition name (k : kind) : string :=
  match k with
  | ArgCountMissmatch => "ArgCountMissmatch"
  | UnexpectedDataAfterInclude => "UnexpectedDataAfterInclude"
  | RecursiveInclude => "RecursiveInclude"
  | IncludeFailed => "IncludeFailed"
  | MacroDefinedTwice => "MacroDefinedTwice"
  | MacroNotFound => "MacroNotFound"
  | UnexpectedIfdef => "UnexpectedIfdef"
  | UnexpectedIfndef => "UnexpectedIfndef"
  | UnexpectedElse => "UnexpectedElse"
  | UnexpectedEndif => "UnexpectedEndif"
  | MissingEndif => "MissingEndif"
  | UnknownInstruction => "UnknownInstruction"
  | EmptyArgument => "EmptyArgument"
  end.

Definition all : list kind :=
  [ArgCountMissmatch; UnexpectedDataAfterInclude; RecursiveInclude;
   IncludeFailed; MacroDefinedTwice; MacroNotFound;
   UnexpectedIfdef; UnexpectedIfndef; UnexpectedElse;
   UnexpectedEndif; MissingEndif; UnknownInstruction;
   EmptyArgument].

End preprocessor.

(** *** [namespace logmessage::assembly] *)

Module assembly.

(** The classes of the namespace, in declaration order. *)
Inductive kind :=
  | ExpectedSemicolon | NoViableAlternativeInstructions
  | NoViableAlternativeArg | ExpectedEndStatement | ExpectedCallNular
  | ExpectedNularOperator | UnknownNularOperator | ExpectedCallUnary
  | ExpectedUnaryOperator | UnknownUnaryOperator | ExpectedCallBinary
  | ExpectedBinaryOperator | UnknownBinaryOperator | ExpectedAssignTo
  | ExpectedVariableName | ExpectedAssignToLocal | ExpectedGetVariable
  | ExpectedMakeArray | ExpectedInteger | ExpectedPush | ExpectedTypeName
  | NumberOutOfRange.

#[global] Instance assembly_kind_eq_dec : EqDecision kind.
Proof. solve_decision. Defined.

(** [static const loglevel level] of each class. *)
Definition level (k : kind) : loglevel.t :=
  match k with
  | ExpectedSemicolon => loglevel.error
  | NoViableAlternativeInstructions => loglevel.error
  | NoViableAlternativeArg => loglevel.error
  | ExpectedEndStatement => loglevel.error
  | ExpectedCallNular => loglevel.error
  | ExpectedNularOperator => loglevel.error
  | UnknownNularOperator => loglevel.error
  | ExpectedCallUnary => loglevel.error
  | ExpectedUnaryOperator => loglevel.error
  | UnknownUnaryOperator => loglevel.error
  | ExpectedCallBinary => loglevel.error
  | ExpectedBinaryOperator => loglevel.error
  | UnknownBinaryOperator => loglevel.error
  | ExpectedAssignTo => loglevel.error
  | ExpectedVariableName => loglevel.error
  | ExpectedAssignToLocal => loglevel.error
  | ExpectedGetVariable => loglevel.error
  | ExpectedMakeArray => loglevel.error
  | ExpectedInteger => loglevel.error
  | ExpectedPush => loglevel.error
  | ExpectedTypeName => loglevel.error
  | NumberOutOfRange => loglevel.warning
  end.

(** [static const size_t errorCode] of each class. *)
Definition errorCode (k : kind) : N :=
  match k with
  | ExpectedSemicolon => 20001
  | NoViableAlternativeInstructions => 20002
  | NoViableAlternativeArg => 20003
  | ExpectedEndStatement => 20004
  | ExpectedCallNular => 20005
  | ExpectedNularOperator => 20006
  | UnknownNularOperator => 20007
  | ExpectedCallUnary => 20008
  | ExpectedUnaryOperator => 20009
  | UnknownUnaryOperator => 20010
  | ExpectedCallBinary => 20011
  | ExpectedBinaryOperator => 20012
  | UnknownBinaryOperator => 20013
  | ExpectedAssignTo => 20014
  | ExpectedVariableName => 20015
  | ExpectedAssignToLocal => 20016
  | ExpectedGetVariable => 20017
  | ExpectedMakeArray => 20018
  | ExpectedInteger => 20019
  | ExpectedPush => 20020
  | ExpectedTypeName => 20021
  | NumberOutOfRange => 20022
  end.

(** The data members each class adds to its base, in declaration order. *)
Definition fields (k : kind) : list (string * FieldType) :=
  match k with
  | ExpectedSemicolon => []
  | NoViableAlternativeInstructions => []
  | NoViableAlternativeArg => []
  | ExpectedEndStatement => []
  | ExpectedCallNular => []
  | ExpectedNularOperator => []
  | UnknownNularOperator => [("operator_name", Tstring_view)]
  | ExpectedCallUnary => []
  | ExpectedUnaryOperator => []
  | UnknownUnaryOperator => [("operator_name", Tstring_view)]
  | ExpectedCallBinary => []
  | ExpectedBinaryOperator => []
  | UnknownBinaryOperator => [("operator_name", Tstring_view)]
  | ExpectedAssignTo => []
  | ExpectedVariableName => []
  | ExpectedAssignToLocal => []
  | ExpectedGetVariable => []
  | ExpectedMakeArray => []
  | ExpectedInteger => []
  | ExpectedPush => []
  | ExpectedTypeName => []
  | NumberOutOfRange => []
  end.

(** The class names. *)
Definition name (k : kind) : string :=
  match k with
  | ExpectedSemicolon => "ExpectedSemicolon"
  | NoViableAlternativeInstructions => "NoViableAlternativeInstructions"
  | NoViableAlternativeArg => "NoViableAlternativeArg"
  | ExpectedEndStatement => "ExpectedEndStatement"
  | ExpectedCallNular => "ExpectedCallNular"
  | ExpectedNularOperator => "ExpectedNularOperator"
  | UnknownNularOperator => "UnknownNularOperator"
  | ExpectedCallUnary => "ExpectedCallUnary"
  | ExpectedUnaryOperator => "ExpectedUnaryOperator"
  | UnknownUnaryOperator => "UnknownUnaryOperator"
  | ExpectedCallBinary => "ExpectedCallBinary"
  | ExpectedBinaryOperator => "ExpectedBinaryOperator"
  | UnknownBinaryOperator => "UnknownBinaryOperator"
  | ExpectedAssignTo => "ExpectedAssignTo"
  | ExpectedVariableName => "ExpectedVariableName"
  | ExpectedAssignToLocal => "ExpectedAssignToLocal"
  | ExpectedGetVariable => "ExpectedGetVariable"
  | ExpectedMakeArray => "ExpectedMakeArray"
  | ExpectedInteger => "ExpectedInteger"
  | ExpectedPush => "ExpectedPush"
  | ExpectedTypeName => "ExpectedTypeName"
  | NumberOutOfRange => "NumberOutOfRange"
  end.

Definition all : list kind :=
  [ExpectedSemicolon; NoViableAlternativeInstructions; NoViableAlternativeArg;
   ExpectedEndStatement; ExpectedCallNular; ExpectedNularOperator;
   UnknownNularOperator; ExpectedCallUnary; ExpectedUnaryOperator;
   UnknownUnaryOperator; ExpectedCallBinary; ExpectedBinaryOperator;
   UnknownBinaryOperator; ExpectedAssignTo; ExpectedVariableName;
   ExpectedAssignToLocal; ExpectedGetVariable; ExpectedMakeArray;
   ExpectedInteger; ExpectedPush; ExpectedTypeName;
   NumberOutOfRange].

End assembly.

(** *** [namespace logmessage::sqf] *)

Module sqf.

(** The classes of the namespace, in declaration order. *)
Inductive kind :=
  | ExpectedStatementTerminator | NoViableAlternativeStatement
  | MissingUnderscoreOnPrivateVariable | ExpectedBinaryExpression
  | MissingRightArgument | MissingRoundClosingBracket
  | MissingCurlyClosingBracket | MissingSquareClosingBracket
  | NoViableAlternativePrimaryExpression | EmptyNumber | ExpectedSQF
  | EndOfFile.

#[global] Instance sqf_kind_eq_dec : EqDecision kind.
Proof. solve_decision. Defined.

(** [static const loglevel level] of each class. *)
Definition level (k : kind) : loglevel.t :=
  match k with
  | ExpectedStatementTerminator => loglevel.error
  | NoViableAlternativeStatement => loglevel.error
  | MissingUnderscoreOnPrivateVariable => loglevel.error
  | ExpectedBinaryExpression => loglevel.error
  | MissingRightArgument => loglevel.error
  | MissingRoundClosingBracket => loglevel.error
  | MissingCurlyClosingBracket => loglevel.error
  | MissingSquareClosingBracket => loglevel.error
  | NoViableAlternativePrimaryExpression => loglevel.error
  | EmptyNumber => loglevel.error
  | ExpectedSQF => loglevel.error
  | EndOfFile => loglevel.error
  end.

(** [static const size_t errorCode] of each class. *)
Definition errorCode (k : kind) : N :=
  match k with
  | ExpectedStatementTerminator => 30001
  | NoViableAlternativeStatement => 30002
  | MissingUnderscoreOnPrivateVariable => 30003
  | ExpectedBinaryExpression => 30004
  | MissingRightArgument => 30005
  | MissingRoundClosingBracket => 30006
  | MissingCurlyClosingBracket => 30007
  | MissingSquareClosingBracket => 30008
  | NoViableAlternativePrimaryExpression => 30009
  | EmptyNumber => 30010
  | ExpectedSQF => 30011
  | EndOfFile => 30012
  end.

(** The data members each class adds to its base, in declaration order. *)
Definition fields (k : kind) : list (string * FieldType) :=
  match k with
  | ExpectedStatementTerminator => []
  | NoViableAlternativeStatement => []
  | MissingUnderscoreOnPrivateVariable => [("m_variable_name", Tstring_view)]
  | ExpectedBinaryExpression => []
  | MissingRightArgument => [("m_operator_name", Tstring_view)]
  | MissingRoundClosingBracket => []
  | MissingCurlyClosingBracket => []
  | MissingSquareClosingBracket => []
  | NoViableAlternativePrimaryExpression => []
  | EmptyNumber => []
  | ExpectedSQF => []
  | EndOfFile => []
  end.

(** The class names. *)
Definition name (k : kind) : string :=
  match k with
  | ExpectedStatementTerminator => "ExpectedStatementTerminator"
  | NoViableAlternativeStatement => "NoViableAlternativeStatement"
  | MissingUnderscoreOnPrivateVariable => "MissingUnderscoreOnPrivateVariable"
  | ExpectedBinaryExpression => "ExpectedBinaryExpression"
  | MissingRightArgument => "MissingRightArgument"
  | MissingRoundClosingBracket => "MissingRoundClosingBracket"
  | MissingCurlyClosingBracket => "MissingCurlyClosingBracket"
  | MissingSquareClosingBracket => "MissingSquareClosingBracket"
  | NoViableAlternativePrimaryExpression => "NoViableAlternativePrimaryExpression"
  | EmptyNumber => "EmptyNumber"
  | ExpectedSQF => "ExpectedSQF"
  | EndOfFile => "EndOfFile"
  end.

Definition all : list kind :=
  [ExpectedStatementTerminator; NoViableAlternativeStatement; MissingUnderscoreOnPrivateVariable;
   ExpectedBinaryExpression; MissingRightArgument; MissingRoundClosingBracket;
   MissingCurlyClosingBracket; MissingSquareClosingBracket; NoViableAlternativePrimaryExpression;
   EmptyNumber; ExpectedSQF; EndOfFile].

End sqf.

(** *** [namespace logmessage::config] *)

Module config.

(** The classes of the namespace, in declaration order. *)
Inductive kind :=
  | ExpectedStatementTerminator | NoViableAlternativeNode
  | ExpectedIdentifier | MissingRoundClosingBracket
  | MissingCurlyOpeningBracket | MissingCurlyClosingBracket
  | MissingSquareClosingBracket | MissingEqualSign | ExpectedArray
  | ExpectedValue | NoViableAlternativeValue | EndOfFileNotReached.

#[global] Instance config_kind_eq_dec : EqDecision kind.
Proof. solve_decision. Defined.

(** [static const loglevel level] of each class. *)
Definition level (k : kind) : loglevel.t :=
  match k with
  | ExpectedStatementTerminator => loglevel.error
  | NoViableAlternativeNode => loglevel.error
  | ExpectedIdentifier => loglevel.error
  | MissingRoundClosingBracket => loglevel.error
  | MissingCurlyOpeningBracket => loglevel.error
  | MissingCurlyClosingBracket => loglevel.error
  | MissingSquareClosingBracket => loglevel.error
  | MissingEqualSign => loglevel.error
  | ExpectedArray => loglevel.error
  | ExpectedValue => loglevel.error
  | NoViableAlternativeValue => loglevel.error
  | EndOfFileNotReached => loglevel.error
  end.

(** [static const size_t errorCode] of each class. *)
Definition errorCode (k : kind) : N :=
  match k with
  | ExpectedStatementTerminator => 40001
  | NoViableAlternativeNode => 40002
  | ExpectedIdentifier => 40003
  | MissingRoundClosingBracket => 40004
  | MissingCurlyOpeningBracket => 40005
  | MissingCurlyClosingBracket => 40006
  | MissingSquareClosingBracket => 40007
  | MissingEqualSign => 40008
  | ExpectedArray => 40009
  | ExpectedValue => 40010
  | NoViableAlternativeValue => 40011
  | EndOfFileNotReached => 40012
  end.

(** The data members each class adds to its base, in declaration order. *)
Definition fields (k : kind) : list (string * FieldType) :=
  match k with
  | ExpectedStatementTerminator => []
  | NoViableAlternativeNode => []
  | ExpectedIdentifier => []
  | MissingRoundClosingBracket => []
  | MissingCurlyOpeningBracket => []
  | MissingCurlyClosingBracket => []
  | MissingSquareClosingBracket => []
  | MissingEqualSign => []
  | ExpectedArray => []
  | ExpectedValue => []
  | NoViableAlternativeValue => []
  | EndOfFileNotReached => []
  end.

(** The class names. *)
Definition name (k : kind) : string :=
  match k with
  | ExpectedStatementTerminator => "ExpectedStatementTerminator"
  | NoViableAlternativeNode => "NoViableAlternativeNode"
  | ExpectedIdentifier => "ExpectedIdentifier"
  | MissingRoundClosingBracket => "MissingRoundClosingBracket"
  | MissingCurlyOpeningBracket => "MissingCurlyOpeningBracket"
  | MissingCurlyClosingBracket => "MissingCurlyClosingBracket"
  | MissingSquareClosingBracket => "MissingSquareClosingBracket"
  | MissingEqualSign => "MissingEqualSign"
  | ExpectedArray => "ExpectedArray"
  | ExpectedValue => "ExpectedValue"
  | NoViableAlternativeValue => "NoViableAlternativeValue"
  | EndOfFileNotReached => "EndOfFileNotReached"
  end.

Definition all : list kind :=
  [ExpectedStatementTerminator; NoViableAlternativeNode; ExpectedIdentifier;
   MissingRoundClosingBracket; MissingCurlyOpeningBracket; MissingCurlyClosingBracket;
   MissingSquareClosingBracket; MissingEqualSign; ExpectedArray;
   ExpectedValue; NoViableAlternativeValue; EndOfFileNotReached].

End config.

(** *** [namespace logmessage::linting] *)

Module linting.

(** The classes of the namespace, in declaration order. *)
Inductive kind :=
  | UnassignedVariable.

#[global] Instance linting_kind_eq_dec : EqDecision kind.
Proof. solve_decision. Defined.

(** [static const loglevel level] of each class. *)
Definition level (k : kind) : loglevel.t :=
  match k with
  | UnassignedVariable => loglevel.warning
  end.

(** [static const size_t errorCode] of each class. *)
Definition errorCode (k : kind) : N :=
  match k with
  | UnassignedVariable => 50001
  end.

(** The data members each class adds to its base, in declaration order. *)
Definition fields (k : kind) : list (string * FieldType) :=
  match k with
  | UnassignedVariable => [("m_variable_name", Tstring_view)]
  end.

(** The class names. *)
Definition name (k : kind) : string :=
  match k with
  | UnassignedVariable => "UnassignedVariable"
  end.

Definition all : list kind :=
  [UnassignedVariable].

End linting.

(** *** [namespace logmessage::runtime] *)

Module runtime.

(** The classes of the namespace, in declaration order. *)
Inductive kind :=
  | Stacktrace | MaximumInstructionCountReached | ExpectedArraySizeMissmatch
  | ExpectedArraySizeMissmatchWeak | ExpectedMinimumArraySizeMissmatch
  | ExpectedMinimumArraySizeMissmatchWeak | ExpectedArrayTypeMissmatch
  | ExpectedArrayTypeMissmatchWeak | IndexOutOfRange | IndexOutOfRangeWeak
  | NegativeIndex | NegativeIndexWeak | IndexEqualsRange | ReturningNil
  | ReturningEmptyArray | NegativeSize | NegativeSizeWeak | ArrayRecursion
  | InfoMessage | SuspensionDisabled | SuspensionInUnscheduledEnvironment
  | ReturningConfigNull | AssertFailed | StartIndexExceedsToIndex
  | StartIndexExceedsToIndexWeak | MagicVariableTypeMissmatch
  | ScriptHandleAlreadyTerminated | ScriptHandleAlreadyFinished
  | ExtensionLoaded | ExtensionNotTerminatingVersionString
  | ExtensionNotTerminatingCallExtensionBufferString
  | ExtensionNotTerminatingCallExtensionArgBufferString
  | LibraryNameContainsPath | ReturningEmptyString | ExtensionRuntimeError
  | FileNotFound | ScopeNameAlreadySet | ScriptNameAlreadySet
  | ReturningEmptyScriptHandle | ReturningErrorCode
  | ExpectedSubArrayTypeMissmatch | ExpectedSubArrayTypeMissmatchWeak
  | ErrorMessage | FileSystemDisabled | NetworkingDisabled | AlreadyConnected
  | NetworkingFormatMissmatch | FailedToEstablishConnection
  | ExpectedArrayToHaveElements | ExpectedArrayToHaveElementsWeak
  | ClipboardDisabled | FailedToCopyToClipboard | FormatInvalidPlaceholder
  | ZeroDivisor | MarkerNotExisting | ReturningDefaultArray
  | ReturningScalarZero | ExpectedNonNullValue | ExpectedNonNullValueWeak
  | ConfigEntryNotFound | ConfigEntryNotFoundWeak | ExpectedVehicle
  | ExpectedVehicleWeak | ExpectedUnit | ExpectedUnitWeak | ReturningFalse
  | MarkerAlreadyExisting | InvalidMarkershape | TypeMissmatch
  | TypeMissmatchWeak | VariableNotFound | StackCorruptionMissingValues
  | NoValueFoundForRightArgument | NoValueFoundForRightArgumentWeak
  | NoValueFoundForLeftArgument | NoValueFoundForLeftArgumentWeak
  | UnknownInputTypeCombinationBinary | FoundNoValue | CallstackFoundNoValue
  | CallstackFoundNoValueWeak | GroupNotEmpty | ForStepVariableTypeMissmatch
  | ForStepNoWorkShouldBeDone.

#[global] Instance runtime_kind_eq_dec : EqDecision kind.
Proof. solve_decision. Defined.

(** [static const loglevel level] of each class. *)
Definition level (k : kind) : loglevel.t :=
  match k with
  | Stacktrace => loglevel.fatal
  | MaximumInstructionCountReached => loglevel.fatal
  | ExpectedArraySizeMissmatch => loglevel.error
  | ExpectedArraySizeMissmatchWeak => loglevel.warning
  | ExpectedMinimumArraySizeMissmatch => loglevel.error
  | ExpectedMinimumArraySizeMissmatchWeak => loglevel.warning
  | ExpectedArrayTypeMissmatch => loglevel.error
  | ExpectedArrayTypeMissmatchWeak => loglevel.warning
  | IndexOutOfRange => loglevel.error
  | IndexOutOfRangeWeak => loglevel.warning
  | NegativeIndex => loglevel.error
  | NegativeIndexWeak => loglevel.warning
  | IndexEqualsRange => loglevel.warning
  | ReturningNil => loglevel.verbose
  | ReturningEmptyArray => loglevel.verbose
  | NegativeSize => loglevel.error
  | NegativeSizeWeak => loglevel.warning
  | ArrayRecursion => loglevel.error
  | InfoMessage => loglevel.info
  | SuspensionDisabled => loglevel.error
  | SuspensionInUnscheduledEnvironment => loglevel.error
  | ReturningConfigNull => loglevel.verbose
  | AssertFailed => loglevel.error
  | StartIndexExceedsToIndex => loglevel.error
  | StartIndexExceedsToIndexWeak => loglevel.warning
  | MagicVariableTypeMissmatch => loglevel.error
  | ScriptHandleAlreadyTerminated => loglevel.warning
  | ScriptHandleAlreadyFinished => loglevel.warning
  | ExtensionLoaded => loglevel.verbose
  | ExtensionNotTerminatingVersionString => loglevel.warning
  | ExtensionNotTerminatingCallExtensionBufferString => loglevel.warning
  | ExtensionNotTerminatingCallExtensionArgBufferString => loglevel.warning
  | LibraryNameContainsPath => loglevel.warning
  | ReturningEmptyString => loglevel.verbose
  | ExtensionRuntimeError => loglevel.warning
  | FileNotFound => loglevel.warning
  | ScopeNameAlreadySet => loglevel.error
  | ScriptNameAlreadySet => loglevel.warning
  | ReturningEmptyScriptHandle => loglevel.verbose
  | ReturningErrorCode => loglevel.verbose
  | ExpectedSubArrayTypeMissmatch => loglevel.error
  | ExpectedSubArrayTypeMissmatchWeak => loglevel.warning
  | ErrorMessage => loglevel.error
  | FileSystemDisabled => loglevel.warning
  | NetworkingDisabled => loglevel.warning
  | AlreadyConnected => loglevel.error
  | NetworkingFormatMissmatch => loglevel.error
  | FailedToEstablishConnection => loglevel.warning
  | ExpectedArrayToHaveElements => loglevel.error
  | ExpectedArrayToHaveElementsWeak => loglevel.warning
  | ClipboardDisabled => loglevel.warning
  | FailedToCopyToClipboard => loglevel.warning
  | FormatInvalidPlaceholder => loglevel.warning
  | ZeroDivisor => loglevel.warning
  | MarkerNotExisting => loglevel.warning
  | ReturningDefaultArray => loglevel.verbose
  | ReturningScalarZero => loglevel.verbose
  | ExpectedNonNullValue => loglevel.error
  | ExpectedNonNullValueWeak => loglevel.warning
  | ConfigEntryNotFound => loglevel.error
  | ConfigEntryNotFoundWeak => loglevel.warning
  | ExpectedVehicle => loglevel.error
  | ExpectedVehicleWeak => loglevel.warning
  | ExpectedUnit => loglevel.error
  | ExpectedUnitWeak => loglevel.warning
  | ReturningFalse => loglevel.verbose
  | MarkerAlreadyExisting => loglevel.warning
  | InvalidMarkershape => loglevel.warning
  | TypeMissmatch => loglevel.error
  | TypeMissmatchWeak => loglevel.warning
  | VariableNotFound => loglevel.warning
  | StackCorruptionMissingValues => loglevel.error
  | NoValueFoundForRightArgument => loglevel.error
  | NoValueFoundForRightArgumentWeak => loglevel.warning
  | NoValueFoundForLeftArgument => loglevel.error
  | NoValueFoundForLeftArgumentWeak => loglevel.warning
  | UnknownInputTypeCombinationBinary => loglevel.error
  | FoundNoValue => loglevel.error
  | CallstackFoundNoValue => loglevel.error
  | CallstackFoundNoValueWeak => loglevel.warning
  | GroupNotEmpty => loglevel.warning
  | ForStepVariableTypeMissmatch => loglevel.warning
  | ForStepNoWorkShouldBeDone => loglevel.warning
  end.

(** [static const size_t errorCode] of each class. *)
Definition errorCode (k : kind) : N :=
  match k with
  | Stacktrace => 60001
  | MaximumInstructionCountReached => 60002
  | ExpectedArraySizeMissmatch => 60003
  | ExpectedArraySizeMissmatchWeak => 60004
  | ExpectedMinimumArraySizeMissmatch => 60005
  | ExpectedMinimumArraySizeMissmatchWeak => 60006
  | ExpectedArrayTypeMissmatch => 60007
  | ExpectedArrayTypeMissmatchWeak => 60008
  | IndexOutOfRange => 60009
  | IndexOutOfRangeWeak => 60010
  | NegativeIndex => 60011
  | NegativeIndexWeak => 60012
  | IndexEqualsRange => 60013
  | ReturningNil => 60014
  | ReturningEmptyArray => 60015
  | NegativeSize => 60016
  | NegativeSizeWeak => 60017
  | ArrayRecursion => 60018
  | InfoMessage => 60019
  | SuspensionDisabled => 60020
  | SuspensionInUnscheduledEnvironment => 60021
  | ReturningConfigNull => 60022
  | AssertFailed => 60023
  | StartIndexExceedsToIndex => 60024
  | StartIndexExceedsToIndexWeak => 60025
  | MagicVariableTypeMissmatch => 60026
  | ScriptHandleAlreadyTerminated => 60027
  | ScriptHandleAlreadyFinished => 60028
  | ExtensionLoaded => 60029
  | ExtensionNotTerminatingVersionString => 60030
  | ExtensionNotTerminatingCallExtensionBufferString => 60031
  | ExtensionNotTerminatingCallExtensionArgBufferString => 60032
  | LibraryNameContainsPath => 60033
  | ReturningEmptyString => 60034
  | ExtensionRuntimeError => 60035
  | FileNotFound => 60036
  | ScopeNameAlreadySet => 60037
  | ScriptNameAlreadySet => 60038
  | ReturningEmptyScriptHandle => 60039
  | ReturningErrorCode => 60040
  | ExpectedSubArrayTypeMissmatch => 60041
  | ExpectedSubArrayTypeMissmatchWeak => 60042
  | ErrorMessage => 60043
  | FileSystemDisabled => 60044
  | NetworkingDisabled => 60045
  | AlreadyConnected => 60046
  | NetworkingFormatMissmatch => 60047
  | FailedToEstablishConnection => 60048
  | ExpectedArrayToHaveElements => 60049
  | ExpectedArrayToHaveElementsWeak => 60050
  | ClipboardDisabled => 60051
  | FailedToCopyToClipboard => 60052
  | FormatInvalidPlaceholder => 60053
  | ZeroDivisor => 60054
  | MarkerNotExisting => 60055
  | ReturningDefaultArray => 60056
  | ReturningScalarZero => 60057
  | ExpectedNonNullValue => 60058
  | ExpectedNonNullValueWeak => 60059
  | ConfigEntryNotFound => 60060
  | ConfigEntryNotFoundWeak => 60061
  | ExpectedVehicle => 60062
  | ExpectedVehicleWeak => 60063
  | ExpectedUnit => 60064
  | ExpectedUnitWeak => 60065
  | ReturningFalse => 60066
  | MarkerAlreadyExisting => 60067
  | InvalidMarkershape => 60067
  | TypeMissmatch => 60068
  | TypeMissmatchWeak => 60069
  | VariableNotFound => 60070
  | StackCorruptionMissingValues => 60071
  | NoValueFoundForRightArgument => 60072
  | NoValueFoundForRightArgumentWeak => 60073
  | NoValueFoundForLeftArgument => 60074
  | NoValueFoundForLeftArgumentWeak => 60075
  | UnknownInputTypeCombinationBinary => 60076
  | FoundNoValue => 60077
  | CallstackFoundNoValue => 60078
  | CallstackFoundNoValueWeak => 60079
  | GroupNotEmpty => 60080
  | ForStepVariableTypeMissmatch => 60081
  | ForStepNoWorkShouldBeDone => 60082
  end.

(** The data members each class adds to its base, in declaration order. *)
Definition fields (k : kind) : list (string * FieldType) :=
  match k with
  | Stacktrace => [("m_stacktrace", Tstring)]
  | MaximumInstructionCountReached => [("m_maximum_instruction_count", Tsize_t)]
  | ExpectedArraySizeMissmatch => [("m_expected_min", Tsize_t); ("m_expected_max", Tsize_t); ("m_got", Tsize_t)]
  | ExpectedArraySizeMissmatchWeak => [("m_expected_min", Tsize_t); ("m_expected_max", Tsize_t); ("m_got", Tsize_t)]
  | ExpectedMinimumArraySizeMissmatch => [("m_expected", Tsize_t); ("m_got", Tsize_t)]
  | ExpectedMinimumArraySizeMissmatchWeak => [("m_expected", Tsize_t); ("m_got", Tsize_t)]
  | ExpectedArrayTypeMissmatch => [("m_position", Tsize_t); ("m_expected", Tvector_sqf_type); ("m_got", Tsqf_type)]
  | ExpectedArrayTypeMissmatchWeak => [("m_position", Tsize_t); ("m_expected", Tvector_sqf_type); ("m_got", Tsqf_type)]
  | IndexOutOfRange => [("m_range", Tsize_t); ("m_index", Tsize_t)]
  | IndexOutOfRangeWeak => [("m_range", Tsize_t); ("m_index", Tsize_t)]
  | NegativeIndex => []
  | NegativeIndexWeak => []
  | IndexEqualsRange => [("m_range", Tsize_t); ("m_index", Tsize_t)]
  | ReturningNil => []
  | ReturningEmptyArray => []
  | NegativeSize => []
  | NegativeSizeWeak => []
  | ArrayRecursion => []
  | InfoMessage => [("m_source", Tstring_view); ("m_message", Tstring)]
  | SuspensionDisabled => []
  | SuspensionInUnscheduledEnvironment => []
  | ReturningConfigNull => []
  | AssertFailed => []
  | StartIndexExceedsToIndex => [("m_from", Tsize_t); ("m_to", Tsize_t)]
  | StartIndexExceedsToIndexWeak => [("m_from", Tsize_t); ("m_to", Tsize_t)]
  | MagicVariableTypeMissmatch => [("m_variable_name", Tstring_view); ("m_expected", Tsqf_type); ("m_got", Tsqf_type)]
  | ScriptHandleAlreadyTerminated => []
  | ScriptHandleAlreadyFinished => []
  | ExtensionLoaded => [("m_extension_name", Tstring_view); ("m_version", Tstring)]
  | ExtensionNotTerminatingVersionString => [("m_extension_name", Tstring_view)]
  | ExtensionNotTerminatingCallExtensionBufferString => [("m_extension_name", Tstring_view)]
  | ExtensionNotTerminatingCallExtensionArgBufferString => [("m_extension_name", Tstring_view)]
  | LibraryNameContainsPath => [("m_extension_name", Tstring_view)]
  | ReturningEmptyString => []
  | ExtensionRuntimeError => [("m_extension_name", Tstring_view); ("m_what", Tstring_view)]
  | FileNotFound => [("m_filename", Tstring_view)]
  | ScopeNameAlreadySet => []
  | ScriptNameAlreadySet => []
  | ReturningEmptyScriptHandle => []
  | ReturningErrorCode => [("m_error_code", Tstring_view)]
  | ExpectedSubArrayTypeMissmatch => [("m_position", Tvector_size_t); ("m_expected", Tvector_sqf_type); ("m_got", Tsqf_type)]
  | ExpectedSubArrayTypeMissmatchWeak => [("m_position", Tvector_size_t); ("m_expected", Tvector_sqf_type); ("m_got", Tsqf_type)]
  | ErrorMessage => [("m_source", Tstring_view); ("m_message", Tstring)]
  | FileSystemDisabled => []
  | NetworkingDisabled => []
  | AlreadyConnected => []
  | NetworkingFormatMissmatch => [("m_provided", Tstring_view)]
  | FailedToEstablishConnection => []
  | ExpectedArrayToHaveElements => []
  | ExpectedArrayToHaveElementsWeak => []
  | ClipboardDisabled => []
  | FailedToCopyToClipboard => []
  | FormatInvalidPlaceholder => [("m_placeholder", Tchar); ("m_index", Tsize_t)]
  | ZeroDivisor => []
  | MarkerNotExisting => [("m_marker_name", Tstring_view)]
  | ReturningDefaultArray => [("m_size", Tsize_t)]
  | ReturningScalarZero => []
  | ExpectedNonNullValue => []
  | ExpectedNonNullValueWeak => []
  | ConfigEntryNotFound => [("m_config_path", Tvector_string); ("m_config_name", Tstring)]
  | ConfigEntryNotFoundWeak => [("m_config_path", Tvector_string); ("m_config_name", Tstring)]
  | ExpectedVehicle => []
  | ExpectedVehicleWeak => []
  | ExpectedUnit => []
  | ExpectedUnitWeak => []
  | ReturningFalse => []
  | MarkerAlreadyExisting => [("m_marker_name", Tstring_view)]
  | InvalidMarkershape => [("m_shape_name", Tstring_view)]
  | TypeMissmatch => [("m_expected", Tsqf_type); ("m_got", Tsqf_type)]
  | TypeMissmatchWeak => [("m_expected", Tsqf_type); ("m_got", Tsqf_type)]
  | VariableNotFound => [("m_variable_name", Tstring_view)]
  | StackCorruptionMissingValues => [("m_expected", Tsize_t); ("m_got", Tsize_t)]
  | NoValueFoundForRightArgument => []
  | NoValueFoundForRightArgumentWeak => []
  | NoValueFoundForLeftArgument => []
  | NoValueFoundForLeftArgumentWeak => []
  | UnknownInputTypeCombinationBinary => [("m_operator", Tstring_view); ("m_left_got", Tsqf_type); ("m_right_got", Tsqf_type)]
  | FoundNoValue => []
  | CallstackFoundNoValue => [("m_callstack_name", Tstring_view)]
  | CallstackFoundNoValueWeak => [("m_callstack_name", Tstring_view)]
  | GroupNotEmpty => [("m_group_name", Tstring_view)]
  | ForStepVariableTypeMissmatch => [("m_variable_name", Tstring_view); ("m_expected", Tsqf_type); ("m_got", Tsqf_type)]
  | ForStepNoWorkShouldBeDone => [("m_step", Tdouble); ("m_from", Tdouble); ("m_to", Tdouble)]
  end.

(** The class names. *)
Definition name (k : kind) : string :=
  match k with
  | Stacktrace => "Stacktrace"
  | MaximumInstructionCountReached => "MaximumInstructionCountReached"
  | ExpectedArraySizeMissmatch => "ExpectedArraySizeMissmatch"
  | ExpectedArraySizeMissmatchWeak => "ExpectedArraySizeMissmatchWeak"
  | ExpectedMinimumArraySizeMissmatch => "ExpectedMinimumArraySizeMissmatch"
  | ExpectedMinimumArraySizeMissmatchWeak => "ExpectedMinimumArraySizeMissmatchWeak"
  | ExpectedArrayTypeMissmatch => "ExpectedArrayTypeMissmatch"
  | ExpectedArrayTypeMissmatchWeak => "ExpectedArrayTypeMissmatchWeak"
  | IndexOutOfRange => "IndexOutOfRange"
  | IndexOutOfRangeWeak => "IndexOutOfRangeWeak"
  | NegativeIndex => "NegativeIndex"
  | NegativeIndexWeak => "NegativeIndexWeak"
  | IndexEqualsRange => "IndexEqualsRange"
  | ReturningNil => "ReturningNil"
  | ReturningEmptyArray => "ReturningEmptyArray"
  | NegativeSize => "NegativeSize"
  | NegativeSizeWeak => "NegativeSizeWeak"
  | ArrayRecursion => "ArrayRecursion"
  | InfoMessage => "InfoMessage"
  | SuspensionDisabled => "SuspensionDisabled"
  | SuspensionInUnscheduledEnvironment => "SuspensionInUnscheduledEnvironment"
  | ReturningConfigNull => "ReturningConfigNull"
  | AssertFailed => "AssertFailed"
  | StartIndexExceedsToIndex => "StartIndexExceedsToIndex"
  | StartIndexExceedsToIndexWeak => "StartIndexExceedsToIndexWeak"
  | MagicVariableTypeMissmatch => "MagicVariableTypeMissmatch"
  | ScriptHandleAlreadyTerminated => "ScriptHandleAlreadyTerminated"
  | ScriptHandleAlreadyFinished => "ScriptHandleAlreadyFinished"
  | ExtensionLoaded => "ExtensionLoaded"
  | ExtensionNotTerminatingVersionString => "ExtensionNotTerminatingVersionString"
  | ExtensionNotTerminatingCallExtensionBufferString => "ExtensionNotTerminatingCallExtensionBufferString"
  | ExtensionNotTerminatingCallExtensionArgBufferString => "ExtensionNotTerminatingCallExtensionArgBufferString"
  | LibraryNameContainsPath => "LibraryNameContainsPath"
  | ReturningEmptyString => "ReturningEmptyString"
  | ExtensionRuntimeError => "ExtensionRuntimeError"
  | FileNotFound => "FileNotFound"
  | ScopeNameAlreadySet => "ScopeNameAlreadySet"
  | ScriptNameAlreadySet => "ScriptNameAlreadySet"
  | ReturningEmptyScriptHandle => "ReturningEmptyScriptHandle"
  | ReturningErrorCode => "ReturningErrorCode"
  | ExpectedSubArrayTypeMissmatch => "ExpectedSubArrayTypeMissmatch"
  | ExpectedSubArrayTypeMissmatchWeak => "ExpectedSubArrayTypeMissmatchWeak"
  | ErrorMessage => "ErrorMessage"
  | FileSystemDisabled => "FileSystemDisabled"
  | NetworkingDisabled => "NetworkingDisabled"
  | AlreadyConnected => "AlreadyConnected"
  | NetworkingFormatMissmatch => "NetworkingFormatMissmatch"
  | FailedToEstablishConnection => "FailedToEstablishConnection"
  | ExpectedArrayToHaveElements => "ExpectedArrayToHaveElements"
  | ExpectedArrayToHaveElementsWeak => "ExpectedArrayToHaveElementsWeak"
  | ClipboardDisabled => "ClipboardDisabled"
  | FailedToCopyToClipboard => "FailedToCopyToClipboard"
  | FormatInvalidPlaceholder => "FormatInvalidPlaceholder"
  | ZeroDivisor => "ZeroDivisor"
  | MarkerNotExisting => "MarkerNotExisting"
  | ReturningDefaultArray => "ReturningDefaultArray"
  | ReturningScalarZero => "ReturningScalarZero"
  | ExpectedNonNullValue => "ExpectedNonNullValue"
  | ExpectedNonNullValueWeak => "ExpectedNonNullValueWeak"
  | ConfigEntryNotFound => "ConfigEntryNotFound"
  | ConfigEntryNotFoundWeak => "ConfigEntryNotFoundWeak"
  | ExpectedVehicle => "ExpectedVehicle"
  | ExpectedVehicleWeak => "ExpectedVehicleWeak"
  | ExpectedUnit => "ExpectedUnit"
  | ExpectedUnitWeak => "ExpectedUnitWeak"
  | ReturningFalse => "ReturningFalse"
  | MarkerAlreadyExisting => "MarkerAlreadyExisting"
  | InvalidMarkershape => "InvalidMarkershape"
  | TypeMissmatch => "TypeMissmatch"
  | TypeMissmatchWeak => "TypeMissmatchWeak"
  | VariableNotFound => "VariableNotFound"
  | StackCorruptionMissingValues => "StackCorruptionMissingValues"
  | NoValueFoundForRightArgument => "NoValueFoundForRightArgument"
  | NoValueFoundForRightArgumentWeak => "NoValueFoundForRightArgumentWeak"
  | NoValueFoundForLeftArgument => "NoValueFoundForLeftArgument"
  | NoValueFoundForLeftArgumentWeak => "NoValueFoundForLeftArgumentWeak"
  | UnknownInputTypeCombinationBinary => "UnknownInputTypeCombinationBinary"
  | FoundNoValue => "FoundNoValue"
  | CallstackFoundNoValue => "CallstackFoundNoValue"
  | CallstackFoundNoValueWeak => "CallstackFoundNoValueWeak"
  | GroupNotEmpty => "GroupNotEmpty"
  | ForStepVariableTypeMissmatch => "ForStepVariableTypeMissmatch"
  | ForStepNoWorkShouldBeDone => "ForStepNoWorkShouldBeDone"
  end.

Definition all : list kind :=
  [Stacktrace; MaximumInstructionCountReached; ExpectedArraySizeMissmatch;
   ExpectedArraySizeMissmatchWeak; ExpectedMinimumArraySizeMissmatch; ExpectedMinimumArraySizeMissmatchWeak;
   ExpectedArrayTypeMissmatch; ExpectedArrayTypeMissmatchWeak; IndexOutOfRange;
   IndexOutOfRangeWeak; NegativeIndex; NegativeIndexWeak;
   IndexEqualsRange; ReturningNil; ReturningEmptyArray;
   NegativeSize; NegativeSizeWeak; ArrayRecursion;
   InfoMessage; SuspensionDisabled; SuspensionInUnscheduledEnvironment;
   ReturningConfigNull; AssertFailed; StartIndexExceedsToIndex;
   StartIndexExceedsToIndexWeak; MagicVariableTypeMissmatch; ScriptHandleAlreadyTerminated;
   ScriptHandleAlreadyFinished; ExtensionLoaded; ExtensionNotTerminatingVersionString;
   ExtensionNotTerminatingCallExtensionBufferString; ExtensionNotTerminatingCallExtensionArgBufferString; LibraryNameContainsPath;
   ReturningEmptyString; ExtensionRuntimeError; FileNotFound;
   ScopeNameAlreadySet; ScriptNameAlreadySet; ReturningEmptyScriptHandle;
   ReturningErrorCode; ExpectedSubArrayTypeMissmatch; ExpectedSubArrayTypeMissmatchWeak;
   ErrorMessage; FileSystemDisabled; NetworkingDisabled;
   AlreadyConnected; NetworkingFormatMissmatch; FailedToEstablishConnection;
   ExpectedArrayToHaveElements; ExpectedArrayToHaveElementsWeak; ClipboardDisabled;
   FailedToCopyToClipboard; FormatInvalidPlaceholder; ZeroDivisor;
   MarkerNotExisting; ReturningDefaultArray; ReturningScalarZero;
   ExpectedNonNullValue; ExpectedNonNullValueWeak; ConfigEntryNotFound;
   ConfigEntryNotFoundWeak; ExpectedVehicle; ExpectedVehicleWeak;
   ExpectedUnit; ExpectedUnitWeak; ReturningFalse;
   MarkerAlreadyExisting; InvalidMarkershape; TypeMissmatch;
   TypeMissmatchWeak; VariableNotFound; StackCorruptionMissingValues;
   NoValueFoundForRightArgument; NoValueFoundForRightArgumentWeak; NoValueFoundForLeftArgument;
   NoValueFoundForLeftArgumentWeak; UnknownInputTypeCombinationBinary; FoundNoValue;
   CallstackFoundNoValue; CallstackFoundNoValueWeak; GroupNotEmpty;
   ForStepVariableTypeMissmatch; ForStepNoWorkShouldBeDone].

End runtime.

(** *** The whole catalog *)

(** The namespaces of [logmessage]. *)
Inductive Domain :=
  | DPreprocessor | DAssembly | DSqf | DConfig | DLinting | DRuntime.

#[global] Instance Domain_eq_dec : EqDecision Domain.
Proof. solve_decision. Defined.

(** A concrete message class: a class of one of the six namespaces. *)
Inductive Kind :=
  | Preprocessor (k : preprocessor.kind)
  | Assembly (k : assembly.kind)
  | Sqf (k : sqf.kind)
  | Config (k : config.kind)
  | Linting (k : linting.kind)
  | Runtime (k : runtime.kind).

#[global] Instance Kind_eq_dec : EqDecision Kind.
Proof. solve_decision. Defined.

Definition Kind_domain (k : Kind) : Domain :=
  match k with
  | Preprocessor _ => DPreprocessor
  | Assembly _ => DAssembly
  | Sqf _ => DSqf
  | Config _ => DConfig
  | Linting _ => DLinting
  | Runtime _ => DRuntime
  end.

Definition Kind_level (k : Kind) : loglevel.t :=
  match k with
  | Preprocessor c => preprocessor.level c
  | Assembly c => assembly.level c
  | Sqf c => sqf.level c
  | Config c => config.level c
  | Linting c => linting.level c
  | Runtime c => runtime.level c
  end.

Definition Kind_errorCode (k : Kind) : N :=
  match k with
  | Preprocessor c => preprocessor.errorCode c
  | Assembly c => assembly.errorCode c
  | Sqf c => sqf.errorCode c
  | Config c => config.errorCode c
  | Linting c => linting.errorCode c
  | Runtime c => runtime.errorCode c
  end.

Definition Kind_fields (k : Kind) : list (string * FieldType) :=
  match k with
  | Preprocessor c => preprocessor.fields c
  | Assembly c => assembly.fields c
  | Sqf c => sqf.fields c
  | Config c => config.fields c
  | Linting c => linting.fields c
  | Runtime c => runtime.fields c
  end.

Definition Kind_name (k : Kind) : string :=
  match k with
  | Preprocessor c => preprocessor.name c
  | Assembly c => assembly.name c
  | Sqf c => sqf.name c
  | Config c => config.name c
  | Linting c => linting.name c
  | Runtime c => runtime.name c
  end.

Definition all_kinds : list Kind :=
  (Preprocessor <$> preprocessor.all) ++ (Assembly <$> assembly.all)
  ++ (Sqf <$> sqf.all) ++ (Config <$> config.all)
  ++ (Linting <$> linting.all) ++ (Runtime <$> runtime.all).

(** The block of codes of a namespace, as the constants are chosen:
    10xxx for the preprocessor up to 60xxx for the runtime. *)
Definition Domain_block (d : Domain) : N :=
  match d with
  | DPreprocessor => 10
  | DAssembly => 20
  | DSqf => 30
  | DConfig => 40
  | DLinting => 50
  | DRuntime => 60
  end.

(** A code [c] is of the form [bbxxx] for the block [bb]. *)
Definition in_block (b c : N) : bool := (c / 1000 =? b)%N.

(** Strong/Weak siblings: two classes of one namespace of which the
    second carries the name of the first followed by [Weak]. *)
Definition siblings (s w : Kind) : bool :=
  bool_decide (Kind_domain s = Kind_domain w)
  && bool_decide (Kind_name w = Kind_name s ++ "Weak").

(** The class whose wording a class shares: its Strong sibling when it
    is a Weak class, otherwise the class itself. *)
Definition Kind_condition (k : Kind) : Kind :=
  match filter (fun s => siblings s k = true) all_kinds with
  | s :: _ => s
  | [] => k
  end.

(** ** Message objects *)

(** [::sqf::type] is an enumeration declared in [type.h]; a value is
    represented by the integer of its enumerator. *)
Definition sqf_type : Type := N.

(** A value of one of the member types.  A [double] is carried as its
    64-bit pattern, a [char] as its code, and the referenced
    [std::runtime_error] by its [what()] text. *)
Inductive FieldValue :=
  | Vsize_t (n : N)
  | Vstring (s : string)
  | Vstring_view (s : string)
  | Vsqf_type (t : sqf_type)
  | Vvector_sqf_type (ts : list sqf_type)
  | Vvector_size_t (ns : list N)
  | Vvector_string (ss : list string)
  | Vchar (c : N)
  | Vdouble (bits : N)
  | Vruntime_error_ref (what : string).

Definition type_of (v : FieldValue) : FieldType :=
  match v with
  | Vsize_t _ => Tsize_t
  | Vstring _ => Tstring
  | Vstring_view _ => Tstring_view
  | Vsqf_type _ => Tsqf_type
  | Vvector_sqf_type _ => Tvector_sqf_type
  | Vvector_size_t _ => Tvector_size_t
  | Vvector_string _ => Tvector_string
  | Vchar _ => Tchar
  | Vdouble _ => Tdouble
  | Vruntime_error_ref _ => Truntime_error_ref
  end.

(** [class LogMessageBase]: the two protected members. *)
Record LogMessageBase := {
  level : loglevel.t;
  errorCode : N
}.

(** [LogMessageBase(loglevel level, size_t code) : level(level), errorCode(code)];
    the default member initialiser [loglevel::verbose] of [level] is
    replaced by the member initialiser. *)
Definition LogMessageBase_ctor (lvl : loglevel.t) (code : N) : LogMessageBase :=
  {| level := lvl; errorCode := code |}.

(** The base class of a namespace ([PreprocBase], [AssemblyBase],
    [SqfBase], [ConfigBase], [LintingBase], [RuntimeBase]): the six are
    the same class up to their name, a [LogMessageBase] with a
    [location]. *)
Record DomainBase := {
  base : LogMessageBase;
  location : LogLocationInfo
}.

Definition DomainBase_ctor (lvl : loglevel.t) (code : N) (loc : LogLocationInfo)
  : DomainBase :=
  {| base := LogMessageBase_ctor lvl code; location := loc |}.

(** An object of a concrete class: its dynamic type, its base
    sub-object and the values of its own members in declaration order. *)
Record LogMessage := {
  dynamic_type : Kind;
  domain_base : DomainBase;
  members : list FieldValue
}.

(** The constructor of class [k] that initialises every member:
    [Base(level, errorCode, std::move(loc)), member(value)...], where
    [level] and [errorCode] are the private constants of [k].  [values]
    are the values the members are initialised with; a list that does
    not fit the member types has no counterpart in a well-typed
    program. *)
Definition construct (k : Kind) (loc : LogLocationInfo) (values : list FieldValue)
  : option LogMessage :=
  if decide (type_of <$> values = snd <$> Kind_fields k) then
    Some {| dynamic_type := k;
            domain_base := DomainBase_ctor (Kind_level k) (Kind_errorCode k) loc;
            members := values |}
  else None.

(** [ExpectedArraySizeMissmatch(loc, expected, got)] and its Weak
    sibling delegate to the four-parameter constructor with
    [expected] as both bounds. *)
Definition ExpectedArraySizeMissmatch_ctor (loc : LogLocationInfo)
    (expected got : N) : option LogMessage :=
  construct (Runtime runtime.ExpectedArraySizeMissmatch) loc
    [Vsize_t expected; Vsize_t expected; Vsize_t got].

Definition ExpectedArraySizeMissmatchWeak_ctor (loc : LogLocationInfo)
    (expected got : N) : option LogMessage :=
  construct (Runtime runtime.ExpectedArraySizeMissmatchWeak) loc
    [Vsize_t expected; Vsize_t expected; Vsize_t got].

(** [virtual loglevel getLevel()] and [virtual size_t getErrorCode()];
    no class of the catalog overrides them. *)
Definition getLevel (m : LogMessage) : loglevel.t := level (base (domain_base m)).

Definition getErrorCode (m : LogMessage) : N := errorCode (base (domain_base m)).

(** ** [class Logger] *)

(** The one data member, a [std::vector<bool>]. *)
Record Logger := { enabledWarningLevels : list bool }.

(** [Logger() : enabledWarningLevels({ true, true, true, true, true, true })] *)
Definition Logger_ctor : Logger :=
  {| enabledWarningLevels := [true; true; true; true; true; true] |}.

(** The subscript both accessors use: [static_cast<size_t>(level)]. *)
Definition subscript (level : loglevel.t) : nat :=
  N.to_nat (static_cast_size_t (loglevel.underlying level)).

(** [isEnabled]: [enabledWarningLevels[static_cast<size_t>(level)]].
    [operator[]] past the end of the vector has no defined result:
    [None]. *)
Definition isEnabled (lg : Logger) (level : loglevel.t) : option bool :=
  enabledWarningLevels lg !! subscript level.

(** [setEnabled]: [enabledWarningLevels[static_cast<size_t>(level)] = isEnabled].
    Again [None] stands for a subscript past the end. *)
Definition setEnabled (lg : Logger) (level : loglevel.t) (b : bool)
  : option Logger :=
  if decide (subscript level < length (enabledWarningLevels lg)) then
    Some {| enabledWarningLevels := <[subscript level := b]> (enabledWarningLevels lg) |}
  else None.

(** The vector keeps the six elements the constructor gives it. *)
Definition Logger_wf (lg : Logger) : Prop := length (enabledWarningLevels lg) = 6.

(** [static std::string_view loglevelstring(loglevel level)].  The
    argument is the value the [loglevel] object holds: an object of the
    enumeration type can hold every value of the underlying type [int],
    and the [switch] has a [default] label for the values that are no
    enumerator. *)
Definition loglevelstring (level : Z) : string :=
  match level with
  | 0%Z => "[FAT]"
  | 1%Z => "[ERR]"
  | 2%Z => "[WRN]"
  | 3%Z => "[INF]"
  | 4%Z => "[VBS]"
  | 5%Z => "[TRC]"
  | _ => "[???]"
  end.

(** [virtual void log(loglevel, std::string_view message) = 0]: the
    interface a concrete logger implements, over the state [W] the
    implementation writes to.  The one implementation of the header,
    [StdOutLogger], adds no member to [Logger] and writes to the
    standard output only, so an implementation acts on [W] alone. *)
Class LoggerImpl (W : Type) := { log : loglevel.t → string → W → W }.

(** The line end written after each message. *)
Definition endl : string := String "010"%char "".

(** Modelled from the spec: [StdOutLogger::log], declared here and
    defined in the implementation file: the console sink writes the
    bracketed tag of the level, one space, the message and a line end
    to the standard output, whose contents so far are the state. *)
Definition StdOutLogger_log (level : loglevel.t) (message : string)
    (cout : string) : string :=
  cout ++ loglevelstring (loglevel.underlying level) ++ " " ++ message ++ endl.

#[global] Instance StdOutLogger : LoggerImpl string := {| log := StdOutLogger_log |}.

(** ** [class CanLog] *)

(** What a run can observe of the calls made: evaluations of
    [formatMessage] and calls of the sink. *)
Inductive Call :=
  | CallFormatMessage (m : LogMessage)
  | CallLog (level : loglevel.t) (message : string).

(** The logger a [CanLog] is bound to ([Logger& m_logger]): its gates,
    the state of its sink, and the calls observed so far. *)
Record State (W : Type) := {
  logger : Logger;
  sink : W;
  calls : list Call
}.

Arguments logger {W} _.
Arguments sink {W} _.
Arguments calls {W} _.

(** A call of the virtual [log] on the bound logger. *)
Definition Logger_log {W} `{LoggerImpl W} (level : loglevel.t) (message : string)
    (st : State W) : State W :=
  {| logger := logger st;
     sink := log level message (sink st);
     calls := calls st ++ [CallLog level message] |}.

(** [setEnabled] on the bound logger. *)
Definition Logger_setEnabled {W} (level : loglevel.t) (b : bool) (st : State W)
  : option (State W) :=
  lg ← setEnabled (logger st) level b;
  Some {| logger := lg; sink := sink st; calls := calls st |}.

Section Emitter.

Context {W : Type} `{LoggerImpl W}.

(** [formatMessage] is pure virtual in [LogMessageBase]; the overriders
    of the catalog are defined in the implementation file. *)
Variable formatMessage : LogMessage → string.

(** Modelled from the spec: [CanLog::log], whose two overloads (for
    [LogMessageBase&] and [LogMessageBase&&]) are declared here and
    defined in the implementation file: read the level of the message,
    consult the gate of the bound logger for it, and only if the gate
    is open evaluate [formatMessage] and pass level and text to the
    sink. *)
Definition CanLog_log (m : LogMessage) (st : State W) : option (State W) :=
  match isEnabled (logger st) (getLevel m) with
  | None => None
  | Some false => Some st
  | Some true =>
      let text := formatMessage m in
      Some (Logger_log (getLevel m) text
              {| logger := logger st;
                 sink := sink st;
                 calls := calls st ++ [CallFormatMessage m] |})
  end.

End Emitter.

(** The number of evaluations of [formatMessage] and of sink calls
    among the observed calls. *)
Definition is_format_call (c : Call) : bool :=
  match c with CallFormatMessage _ => true | CallLog _ _ => false end.

Definition format_calls (cs : list Call) : nat :=
  length (filter (λ c, is_format_call c = true) cs).

Definition sink_calls (cs : list Call) : nat :=
  length (filter (λ c, is_format_call c = false) cs).

(** ** Rendering *)

Section Rendering.

(** [LogLocationInfo::format()], declared here and defined in the
    implementation file. *)
Variable format : LogLocationInfo → string.

(** The wording of a condition, filled with the values of the members. *)
Variable wording : Kind → list FieldValue → string.

(** Modelled from the spec: the overriders of [formatMessage], defined
    in the implementation file: the formatted location followed by the
    wording of the condition; a Weak class instantiates the wording of
    its Strong sibling. *)
Definition templated_formatMessage (m : LogMessage) : string :=
  format (location (domain_base m))
  ++ wording (Kind_condition (dynamic_type m)) (members m).

End Rendering.

(** ** Auxiliary definitions for the statements *)

(** The unordered pair of [runtime::MarkerAlreadyExisting] and
    [runtime::InvalidMarkershape]. *)
Definition marker_pair (a b : Kind) : bool :=
  bool_decide (a = Runtime runtime.MarkerAlreadyExisting
               ∧ b = Runtime runtime.InvalidMarkershape)
  || bool_decide (a = Runtime runtime.InvalidMarkershape
                  ∧ b = Runtime runtime.MarkerAlreadyExisting).

(** All Strong/Weak sibling pairs of the catalog. *)
Definition sibling_pairs : list (Kind * Kind) :=
  filter (λ p, siblings p.1 p.2 = true) (list_prod all_kinds all_kinds).

(** A logger whose [warning] gate has been closed. *)
Definition warning_disabled : Logger :=
  {| enabledWarningLevels := [true; true; false; true; true; true] |}.

(** A location and two messages to run the operations on. *)
Definition test_sqf_3_7 : LogLocationInfo :=
  {| path := "test.sqf"; line := Init 3; col := Init 7 |}.

Definition a_warning : LogMessage :=
  {| dynamic_type := Runtime runtime.VariableNotFound;
     domain_base := DomainBase_ctor loglevel.warning 60070 test_sqf_3_7;
     members := [Vstring_view "_foo"] |}.

Definition an_error : LogMessage :=
  {| dynamic_type := Runtime runtime.AssertFailed;
     domain_base := DomainBase_ctor loglevel.error 60023 test_sqf_3_7;
     members := [] |}.

(** What the header fixes for a Strong/Weak pair [(s, w)]: the same
    members, level [error] against [warning], two different codes, and
    [s] as the class whose wording both share. *)
Definition sibling_check (s w : Kind) : bool :=
  if siblings s w then
    bool_decide (Kind_fields s = Kind_fields w)
    && bool_decide (Kind_level s = loglevel.error)
    && bool_decide (Kind_level w = loglevel.warning)
    && negb (Kind_errorCode s =? Kind_errorCode w)%N
    && bool_decide (Kind_condition s = s)
    && bool_decide (Kind_condition w = s)
  else true.

(** A run of [setEnabled] calls, first to last. *)
Fixpoint setEnabled_seq (ops : list (loglevel.t * bool)) (lg : Logger)
  : option Logger :=
  match ops with
  | [] => Some lg
  | (l, b) :: ops' => lg' ← setEnabled lg l b; setEnabled_seq ops' lg'
  end.

(** The argument of the last call for level [l] in a run, or [d] when
    the run has no call for [l]. *)
Fixpoint last_setting (l : loglevel.t) (ops : list (loglevel.t * bool)) (d : bool)
  : bool :=
  match ops with
  | [] => d
  | (l', b) :: ops' => last_setting l ops' (if decide (l' = l) then b else d)
  end.

(** The last code in use in each namespace. *)
Definition Domain_last (d : Domain) : N :=
  match d with
  | DPreprocessor => 10013
  | DAssembly => 20022
  | DSqf => 30012
  | DConfig => 40012
  | DLinting => 50001
  | DRuntime => 60082
  end.

(** The codes from [lo] on, [n] of them. *)
Definition codes_from (lo : N) (n : nat) : list N :=
  (λ i, lo + N.of_nat i)%N <$> seq 0 n.

(** ** The constructors of the concrete messages *)

(** The parameter types that occur in the constructors: the member
    types, [LogLocationInfo], the [std::array] types of the constructor
    templates, and [loglevel] for the base classes. *)
Inductive ParamType :=
  | Ploglevel               (* loglevel *)
  | PLogLocationInfo        (* LogLocationInfo *)
  | Pmember (t : FieldType) (* one of the member types *)
  | Parray_sqf_type         (* std::array<::sqf::type, size> *)
  | Parray_size_t           (* std::array<size_t, size> *)
  | Parray_string.          (* std::array<std::string, size> *)

#[global] Instance ParamType_eq_dec : EqDecision ParamType.
Proof. solve_decision. Defined.

(** The expressions that occur as arguments in the member initialiser
    lists. *)
Inductive Expr :=
  | Evar (x : string)              (* x *)
  | Emove (x : string)             (* std::move(x) *)
  | Earray1 (x : string)           (* std::array<::sqf::type, 1> { x } *)
  | Evector_sqf_type (x : string)  (* std::vector<::sqf::type>(x.begin(), x.end()) *)
  | Evector_size_t (x : string)    (* std::vector<size_t>(x.begin(), x.end()) *)
  | Evector_string (x : string)    (* std::vector<std::string>(x.begin(), x.end()) *)
  | ENA.                           (* ::sqf::type::NA *)

#[global] Instance Expr_eq_dec : EqDecision Expr.
Proof. solve_decision. Defined.

(** A constructor as the header writes it: the parameter list and the
    member initialiser list, each initialiser a name with its
    arguments.  All constructor bodies are empty. *)
Record Ctor := ctor {
  params : list (string * ParamType);
  inits : list (string * list Expr)
}.

#[global] Instance Ctor_eq_dec : EqDecision Ctor.
Proof. solve_decision. Defined.

(** The name of the base class of each namespace. *)
Definition Domain_base_name (d : Domain) : string :=
  match d with
  | DPreprocessor => "PreprocBase"
  | DAssembly => "AssemblyBase"
  | DSqf => "SqfBase"
  | DConfig => "ConfigBase"
  | DLinting => "LintingBase"
  | DRuntime => "RuntimeBase"
  end.

(** The constructors of [namespace logmessage::preprocessor]. *)
Definition preprocessor_ctors (k : preprocessor.kind) : list Ctor :=
  match k with
  | preprocessor.ArgCountMissmatch =>
      [ctor [("loc", PLogLocationInfo)]
            [("PreprocBase", [Evar "level"; Evar "errorCode"; Emove "loc"])]]
  | preprocessor.UnexpectedDataAfterInclude =>
      [ctor [("loc", PLogLocationInfo)]
            [("PreprocBase", [Evar "level"; Evar "errorCode"; Emove "loc"])]]
  | preprocessor.RecursiveInclude =>
      [ctor [("loc", PLogLocationInfo); ("includeTree", Pmember Tstring)]
            [("PreprocBase", [Evar "level"; Evar "errorCode"; Emove "loc"]);
             ("includeTree", [Emove "includeTree"])]]
  | preprocessor.IncludeFailed =>
      [ctor [("loc", PLogLocationInfo); ("line", Pmember Tstring_view);
             ("exception", Pmember Truntime_error_ref)]
            [("PreprocBase", [Evar "level"; Evar "errorCode"; Emove "loc"]);
             ("line", [Evar "line"]); ("exception", [Evar "exception"])]]
  | preprocessor.MacroDefinedTwice =>
      [ctor [("loc", PLogLocationInfo); ("macroname", Pmember Tstring_view)]
            [("PreprocBase", [Evar "level"; Evar "errorCode"; Emove "loc"]);
             ("macroname", [Evar "macroname"])]]
  | preprocessor.MacroNotFound =>
      [ctor [("loc", PLogLocationInfo); ("macroname", Pmember Tstring_view)]
            [("PreprocBase", [Evar "level"; Evar "errorCode"; Emove "loc"]);
             ("macroname", [Evar "macroname"])]]
  | preprocessor.UnexpectedIfdef =>
      [ctor [("loc", PLogLocationInfo)]
            [("PreprocBase", [Evar "level"; Evar "errorCode"; Emove "loc"])]]
  | preprocessor.UnexpectedIfndef =>
      [ctor [("loc", PLogLocationInfo)]
            [("PreprocBase", [Evar "level"; Evar "errorCode"; Emove "loc"])]]
  | preprocessor.UnexpectedElse =>
      [ctor [("loc", PLogLocationInfo)]
            [("PreprocBase", [Evar "level"; Evar "errorCode"; Emove "loc"])]]
  | preprocessor.UnexpectedEndif =>
      [ctor [("loc", PLogLocationInfo)]
            [("PreprocBase", [Evar "level"; Evar "errorCode"; Emove "loc"])]]
  | preprocessor.MissingEndif =>
      [ctor [("loc", PLogLocationInfo)]
            [("PreprocBase", [Evar "level"; Evar "errorCode"; Emove "loc"])]]
  | preprocessor.UnknownInstruction =>
      [ctor [("loc", PLogLocationInfo); ("instruction", Pmember Tstring_view)]
            [("PreprocBase", [Evar "level"; Evar "errorCode"; Emove "loc"]);
             ("instruction", [Evar "instruction"])]]
  | preprocessor.EmptyArgument =>
      [ctor [("loc", PLogLocationInfo)]
            [("PreprocBase", [Evar "level"; Evar "errorCode"; Emove "loc"])]]
  end.

(** The constructors of [namespace logmessage::assembly]. *)
Definition assembly_ctors (k : assembly.kind) : list Ctor :=
  match k with
  | assembly.ExpectedSemicolon =>
      [ctor [("loc", PLogLocationInfo)]
            [("AssemblyBase", [Evar "level"; Evar "errorCode"; Emove "loc"])]]
  | assembly.NoViableAlternativeInstructions =>
      [ctor [("loc", PLogLocationInfo)]
            [("AssemblyBase", [Evar "level"; Evar "errorCode"; Emove "loc"])]]
  | assembly.NoViableAlternativeArg =>
      [ctor [("loc", PLogLocationInfo)]
            [("AssemblyBase", [Evar "level"; Evar "errorCode"; Emove "loc"])]]
  | assembly.ExpectedEndStatement =>
      [ctor [("loc", PLogLocationInfo)]
            [("AssemblyBase", [Evar "level"; Evar "errorCode"; Emove "loc"])]]
  | assembly.ExpectedCallNular =>
      [ctor [("loc", PLogLocationInfo)]
            [("AssemblyBase", [Evar "level"; Evar "errorCode"; Emove "loc"])]]
  | assembly.ExpectedNularOperator =>
      [ctor [("loc", PLogLocationInfo)]
            [("AssemblyBase", [Evar "level"; Evar "errorCode"; Emove "loc"])]]
  | assembly.UnknownNularOperator =>
      [ctor [("loc", PLogLocationInfo);
             ("operator_name", Pmember Tstring_view)]
            [("AssemblyBase", [Evar "level"; Evar "errorCode"; Emove "loc"]);
             ("operator_name", [Evar "operator_name"])]]
  | assembly.ExpectedCallUnary =>
      [ctor [("loc", PLogLocationInfo)]
            [("AssemblyBase", [Evar "level"; Evar "errorCode"; Emove "loc"])]]
  | assembly.ExpectedUnaryOperator =>
      [ctor [("loc", PLogLocationInfo)]
            [("AssemblyBase", [Evar "level"; Evar "errorCode"; Emove "loc"])]]
  | assembly.UnknownUnaryOperator =>
      [ctor [("loc", PLogLocationInfo);
             ("operator_name", Pmember Tstring_view)]
            [("AssemblyBase", [Evar "level"; Evar "errorCode"; Emove "loc"]);
             ("operator_name", [Evar "operator_name"])]]
  | assembly.ExpectedCallBinary =>
      [ctor [("loc", PLogLocationInfo)]
            [("AssemblyBase", [Evar "level"; Evar "errorCode"; Emove "loc"])]]
  | assembly.ExpectedBinaryOperator =>
      [ctor [("loc", PLogLocationInfo)]
            [("AssemblyBase", [Evar "level"; Evar "errorCode"; Emove "loc"])]]
  | assembly.UnknownBinaryOperator =>
      [ctor [("loc", PLogLocationInfo);
             ("operator_name", Pmember Tstring_view)]
            [("AssemblyBase", [Evar "level"; Evar "errorCode"; Emove "loc"]);
             ("operator_name", [Evar "operator_name"])]]
  | assembly.ExpectedAssignTo =>
      [ctor [("loc", PLogLocationInfo)]
            [("AssemblyBase", [Evar "level"; Evar "errorCode"; Emove "loc"])]]
  | assembly.ExpectedVariableName =>
      [ctor [("loc", PLogLocationInfo)]
            [("AssemblyBase", [Evar "level"; Evar "errorCode"; Emove "loc"])]]
  | assembly.ExpectedAssignToLocal =>
      [ctor [("loc", PLogLocationInfo)]
            [("AssemblyBase", [Evar "level"; Evar "errorCode"; Emove "loc"])]]
  | assembly.ExpectedGetVariable =>
      [ctor [("loc", PLogLocationInfo)]
            [("AssemblyBase", [Evar "level"; Evar "errorCode"; Emove "loc"])]]
  | assembly.ExpectedMakeArray =>
      [ctor [("loc", PLogLocationInfo)]
            [("AssemblyBase", [Evar "level"; Evar "errorCode"; Emove "loc"])]]
  | assembly.ExpectedInteger =>
      [ctor [("loc", PLogLocationInfo)]
            [("AssemblyBase", [Evar "level"; Evar "errorCode"; Emove "loc"])]]
  | assembly.ExpectedPush =>
      [ctor [("loc", PLogLocationInfo)]
            [("AssemblyBase", [Evar "level"; Evar "errorCode"; Emove "loc"])]]
  | assembly.ExpectedTypeName =>
      [ctor [("loc", PLogLocationInfo)]
            [("AssemblyBase", [Evar "level"; Evar "errorCode"; Emove "loc"])]]
  | assembly.NumberOutOfRange =>
      [ctor [("loc", PLogLocationInfo)]
            [("AssemblyBase", [Evar "level"; Evar "errorCode"; Emove "loc"])]]
  end.

(** The constructors of [namespace logmessage::sqf]. *)
Definition sqf_ctors (k : sqf.kind) : list Ctor :=
  match k with
  | sqf.ExpectedStatementTerminator =>
      [ctor [("loc", PLogLocationInfo)]
            [("SqfBase", [Evar "level"; Evar "errorCode"; Emove "loc"])]]
  | sqf.NoViableAlternativeStatement =>
      [ctor [("loc", PLogLocationInfo)]
            [("SqfBase", [Evar "level"; Evar "errorCode"; Emove "loc"])]]
  | sqf.MissingUnderscoreOnPrivateVariable =>
      [ctor [("loc", PLogLocationInfo);
             ("variable_name", Pmember Tstring_view)]
            [("SqfBase", [Evar "level"; Evar "errorCode"; Emove "loc"]);
             ("m_variable_name", [Evar "variable_name"])]]
  | sqf.ExpectedBinaryExpression =>
      [ctor [("loc", PLogLocationInfo)]
            [("SqfBase", [Evar "level"; Evar "errorCode"; Emove "loc"])]]
  | sqf.MissingRightArgument =>
      [ctor [("loc", PLogLocationInfo);
             ("operator_name", Pmember Tstring_view)]
            [("SqfBase", [Evar "level"; Evar "errorCode"; Emove "loc"]);
             ("m_operator_name", [Evar "operator_name"])]]
  | sqf.MissingRoundClosingBracket =>
      [ctor [("loc", PLogLocationInfo)]
            [("SqfBase", [Evar "level"; Evar "errorCode"; Emove "loc"])]]
  | sqf.MissingCurlyClosingBracket =>
      [ctor [("loc", PLogLocationInfo)]
            [("SqfBase", [Evar "level"; Evar "errorCode"; Emove "loc"])]]
  | sqf.MissingSquareClosingBracket =>
      [ctor [("loc", PLogLocationInfo)]
            [("SqfBase", [Evar "level"; Evar "errorCode"; Emove "loc"])]]
  | sqf.NoViableAlternativePrimaryExpression =>
      [ctor [("loc", PLogLocationInfo)]
            [("SqfBase", [Evar "level"; Evar "errorCode"; Emove "loc"])]]
  | sqf.EmptyNumber =>
      [ctor [("loc", PLogLocationInfo)]
            [("SqfBase", [Evar "level"; Evar "errorCode"; Emove "loc"])]]
  | sqf.ExpectedSQF =>
      [ctor [("loc", PLogLocationInfo)]
            [("SqfBase", [Evar "level"; Evar "errorCode"; Emove "loc"])]]
  | sqf.EndOfFile =>
      [ctor [("loc", PLogLocationInfo)]
            [("SqfBase", [Evar "level"; Evar "errorCode"; Emove "loc"])]]
  end.

(** The constructors of [namespace logmessage::config]. *)
Definition config_ctors (k : config.kind) : list Ctor :=
  match k with
  | config.ExpectedStatementTerminator =>
      [ctor [("loc", PLogLocationInfo)]
            [("ConfigBase", [Evar "level"; Evar "errorCode"; Emove "loc"])]]
  | config.NoViableAlternativeNode =>
      [ctor [("loc", PLogLocationInfo)]
            [("ConfigBase", [Evar "level"; Evar "errorCode"; Emove "loc"])]]
  | config.ExpectedIdentifier =>
      [ctor [("loc", PLogLocationInfo)]
            [("ConfigBase", [Evar "level"; Evar "errorCode"; Emove "loc"])]]
  | config.MissingRoundClosingBracket =>
      [ctor [("loc", PLogLocationInfo)]
            [("ConfigBase", [Evar "level"; Evar "errorCode"; Emove "loc"])]]
  | config.MissingCurlyOpeningBracket =>
      [ctor [("loc", PLogLocationInfo)]
            [("ConfigBase", [Evar "level"; Evar "errorCode"; Emove "loc"])]]
  | config.MissingCurlyClosingBracket =>
      [ctor [("loc", PLogLocationInfo)]
            [("ConfigBase", [Evar "level"; Evar "errorCode"; Emove "loc"])]]
  | config.MissingSquareClosingBracket =>
      [ctor [("loc", PLogLocationInfo)]
            [("ConfigBase", [Evar "level"; Evar "errorCode"; Emove "loc"])]]
  | config.MissingEqualSign =>
      [ctor [("loc", PLogLocationInfo)]
            [("ConfigBase", [Evar "level"; Evar "errorCode"; Emove "loc"])]]
  | config.ExpectedArray =>
      [ctor [("loc", PLogLocationInfo)]
            [("ConfigBase", [Evar "level"; Evar "errorCode"; Emove "loc"])]]
  | config.ExpectedValue =>
      [ctor [("loc", PLogLocationInfo)]
            [("ConfigBase", [Evar "level"; Evar "errorCode"; Emove "loc"])]]
  | config.NoViableAlternativeValue =>
      [ctor [("loc", PLogLocationInfo)]
            [("ConfigBase", [Evar "level"; Evar "errorCode"; Emove "loc"])]]
  | config.EndOfFileNotReached =>
      [ctor [("loc", PLogLocationInfo)]
            [("ConfigBase", [Evar "level"; Evar "errorCode"; Emove "loc"])]]
  end.

(** The constructors of [namespace logmessage::linting]. *)
Definition linting_ctors (k : linting.kind) : list Ctor :=
  match k with
  | linting.UnassignedVariable =>
      [ctor [("loc", PLogLocationInfo);
             ("variable_name", Pmember Tstring_view)]
            [("LintingBase", [Evar "level"; Evar "errorCode"; Emove "loc"]);
             ("m_variable_name", [Evar "variable_name"])]]
  end.

(** The constructors of [namespace logmessage::runtime]. *)
Definition runtime_ctors (k : runtime.kind) : list Ctor :=
  match k with
  | runtime.Stacktrace =>
      [ctor [("loc", PLogLocationInfo); ("stacktrace", Pmember Tstring)]
            [("RuntimeBase", [Evar "level"; Evar "errorCode"; Emove "loc"]);
             ("m_stacktrace", [Evar "stacktrace"])]]
  | runtime.MaximumInstructionCountReached =>
      [ctor [("loc", PLogLocationInfo);
             ("maximum_instruction_count", Pmember Tsize_t)]
            [("RuntimeBase", [Evar "level"; Evar "errorCode"; Emove "loc"]);
             ("m_maximum_instruction_count",
              [Evar "maximum_instruction_count"])]]
  | runtime.ExpectedArraySizeMissmatch =>
      [ctor [("loc", PLogLocationInfo); ("expected", Pmember Tsize_t);
             ("got", Pmember Tsize_t)]
            [("ExpectedArraySizeMissmatch",
              [Evar "loc"; Evar "expected"; Evar "expected"; Evar "got"])];
       ctor [("loc", PLogLocationInfo); ("expected_min", Pmember Tsize_t);
             ("expected_max", Pmember Tsize_t); ("got", Pmember Tsize_t)]
            [("RuntimeBase", [Evar "level"; Evar "errorCode"; Emove "loc"]);
             ("m_expected_min", [Evar "expected_min"]);
             ("m_expected_max", [Evar "expected_max"]);
             ("m_got", [Evar "got"])]]
  | runtime.ExpectedArraySizeMissmatchWeak =>
      [ctor [("loc", PLogLocationInfo); ("expected", Pmember Tsize_t);
             ("got", Pmember Tsize_t)]
            [("ExpectedArraySizeMissmatchWeak",
              [Evar "loc"; Evar "expected"; Evar "expected"; Evar "got"])];
       ctor [("loc", PLogLocationInfo); ("expected_min", Pmember Tsize_t);
             ("expected_max", Pmember Tsize_t); ("got", Pmember Tsize_t)]
            [("RuntimeBase", [Evar "level"; Evar "errorCode"; Emove "loc"]);
             ("m_expected_min", [Evar "expected_min"]);
             ("m_expected_max", [Evar "expected_max"]);
             ("m_got", [Evar "got"])]]
  | runtime.ExpectedMinimumArraySizeMissmatch =>
      [ctor [("loc", PLogLocationInfo); ("expected", Pmember Tsize_t);
             ("got", Pmember Tsize_t)]
            [("RuntimeBase", [Evar "level"; Evar "errorCode"; Emove "loc"]);
             ("m_expected", [Evar "expected"]); ("m_got", [Evar "got"])]]
  | runtime.ExpectedMinimumArraySizeMissmatchWeak =>
      [ctor [("loc", PLogLocationInfo); ("expected", Pmember Tsize_t);
             ("got", Pmember Tsize_t)]
            [("RuntimeBase", [Evar "level"; Evar "errorCode"; Emove "loc"]);
             ("m_expected", [Evar "expected"]); ("m_got", [Evar "got"])]]
  | runtime.ExpectedArrayTypeMissmatch =>
      [ctor [("loc", PLogLocationInfo); ("position", Pmember Tsize_t);
             ("expected", Pmember Tvector_sqf_type);
             ("got", Pmember Tsqf_type)]
            [("RuntimeBase", [Evar "level"; Evar "errorCode"; Emove "loc"]);
             ("m_position", [Evar "position"]);
             ("m_expected", [Evar "expected"]); ("m_got", [Evar "got"])];
       ctor [("loc", PLogLocationInfo); ("position", Pmember Tsize_t);
             ("expected", Pmember Tsqf_type); ("got", Pmember Tsqf_type)]
            [("ExpectedArrayTypeMissmatch",
              [Evar "loc"; Evar "position"; Earray1 "expected"; Evar "got"])];
       ctor [("loc", PLogLocationInfo); ("position", Pmember Tsize_t);
             ("expected", Parray_sqf_type); ("got", Pmember Tsqf_type)]
            [("ExpectedArrayTypeMissmatch",
              [Evar "loc"; Evar "position"; Evector_sqf_type "expected"; Evar "got"])]]
  | runtime.ExpectedArrayTypeMissmatchWeak =>
      [ctor [("loc", PLogLocationInfo); ("position", Pmember Tsize_t);
             ("expected", Pmember Tvector_sqf_type);
             ("got", Pmember Tsqf_type)]
            [("RuntimeBase", [Evar "level"; Evar "errorCode"; Emove "loc"]);
             ("m_position", [Evar "position"]);
             ("m_expected", [Evar "expected"]); ("m_got", [Evar "got"])];
       ctor [("loc", PLogLocationInfo); ("position", Pmember Tsize_t);
             ("expected", Pmember Tsqf_type); ("got", Pmember Tsqf_type)]
            [("ExpectedArrayTypeMissmatchWeak",
              [Evar "loc"; Evar "position"; Earray1 "expected"; Evar "got"])];
       ctor [("loc", PLogLocationInfo); ("position", Pmember Tsize_t);
             ("expected", Parray_sqf_type); ("got", Pmember Tsqf_type)]
            [("ExpectedArrayTypeMissmatchWeak",
              [Evar "loc"; Evar "position"; Evector_sqf_type "expected"; Evar "got"])]]
  | runtime.IndexOutOfRange =>
      [ctor [("loc", PLogLocationInfo); ("range", Pmember Tsize_t);
             ("index", Pmember Tsize_t)]
            [("RuntimeBase", [Evar "level"; Evar "errorCode"; Emove "loc"]);
             ("m_range", [Evar "range"]); ("m_index", [Evar "index"])]]
  | runtime.IndexOutOfRangeWeak =>
      [ctor [("loc", PLogLocationInfo); ("range", Pmember Tsize_t);
             ("index", Pmember Tsize_t)]
            [("RuntimeBase", [Evar "level"; Evar "errorCode"; Emove "loc"]);
             ("m_range", [Evar "range"]); ("m_index", [Evar "index"])]]
  | runtime.NegativeIndex =>
      [ctor [("loc", PLogLocationInfo)]
            [("RuntimeBase", [Evar "level"; Evar "errorCode"; Emove "loc"])]]
  | runtime.NegativeIndexWeak =>
      [ctor [("loc", PLogLocationInfo)]
            [("RuntimeBase", [Evar "level"; Evar "errorCode"; Emove "loc"])]]
  | runtime.IndexEqualsRange =>
      [ctor [("loc", PLogLocationInfo); ("range", Pmember Tsize_t);
             ("index", Pmember Tsize_t)]
            [("RuntimeBase", [Evar "level"; Evar "errorCode"; Emove "loc"]);
             ("m_range", [Evar "range"]); ("m_index", [Evar "index"])]]
  | runtime.ReturningNil =>
      [ctor [("loc", PLogLocationInfo)]
            [("RuntimeBase", [Evar "level"; Evar "errorCode"; Emove "loc"])]]
  | runtime.ReturningEmptyArray =>
      [ctor [("loc", PLogLocationInfo)]
            [("RuntimeBase", [Evar "level"; Evar "errorCode"; Emove "loc"])]]
  | runtime.NegativeSize =>
      [ctor [("loc", PLogLocationInfo)]
            [("RuntimeBase", [Evar "level"; Evar "errorCode"; Emove "loc"])]]
  | runtime.NegativeSizeWeak =>
      [ctor [("loc", PLogLocationInfo)]
            [("RuntimeBase", [Evar "level"; Evar "errorCode"; Emove "loc"])]]
  | runtime.ArrayRecursion =>
      [ctor [("loc", PLogLocationInfo)]
            [("RuntimeBase", [Evar "level"; Evar "errorCode"; Emove "loc"])]]
  | runtime.InfoMessage =>
      [ctor [("loc", PLogLocationInfo); ("source", Pmember Tstring_view);
             ("message", Pmember Tstring)]
            [("RuntimeBase", [Evar "level"; Evar "errorCode"; Emove "loc"]);
             ("m_source", [Evar "source"]); ("m_message", [Evar "message"])]]
  | runtime.SuspensionDisabled =>
      [ctor [("loc", PLogLocationInfo)]
            [("RuntimeBase", [Evar "level"; Evar "errorCode"; Emove "loc"])]]
  | runtime.SuspensionInUnscheduledEnvironment =>
      [ctor [("loc", PLogLocationInfo)]
            [("RuntimeBase", [Evar "level"; Evar "errorCode"; Emove "loc"])]]
  | runtime.ReturningConfigNull =>
      [ctor [("loc", PLogLocationInfo)]
            [("RuntimeBase", [Evar "level"; Evar "errorCode"; Emove "loc"])]]
  | runtime.AssertFailed =>
      [ctor [("loc", PLogLocationInfo)]
            [("RuntimeBase", [Evar "level"; Evar "errorCode"; Emove "loc"])]]
  | runtime.StartIndexExceedsToIndex =>
      [ctor [("loc", PLogLocationInfo); ("from", Pmember Tsize_t);
             ("to", Pmember Tsize_t)]
            [("RuntimeBase", [Evar "level"; Evar "errorCode"; Emove "loc"]);
             ("m_from", [Evar "from"]); ("m_to", [Evar "to"])]]
  | runtime.StartIndexExceedsToIndexWeak =>
      [ctor [("loc", PLogLocationInfo); ("from", Pmember Tsize_t);
             ("to", Pmember Tsize_t)]
            [("RuntimeBase", [Evar "level"; Evar "errorCode"; Emove "loc"]);
             ("m_from", [Evar "from"]); ("m_to", [Evar "to"])]]
  | runtime.MagicVariableTypeMissmatch =>
      [ctor [("loc", PLogLocationInfo);
             ("variable_name", Pmember Tstring_view);
             ("expected", Pmember Tsqf_type); ("got", Pmember Tsqf_type)]
            [("RuntimeBase", [Evar "level"; Evar "errorCode"; Emove "loc"]);
             ("m_variable_name", [Evar "variable_name"]);
             ("m_expected", [Evar "expected"]); ("m_got", [Evar "got"])]]
  | runtime.ScriptHandleAlreadyTerminated =>
      [ctor [("loc", PLogLocationInfo)]
            [("RuntimeBase", [Evar "level"; Evar "errorCode"; Emove "loc"])]]
  | runtime.ScriptHandleAlreadyFinished =>
      [ctor [("loc", PLogLocationInfo)]
            [("RuntimeBase", [Evar "level"; Evar "errorCode"; Emove "loc"])]]
  | runtime.ExtensionLoaded =>
      [ctor [("loc", PLogLocationInfo);
             ("extension_name", Pmember Tstring_view);
             ("version", Pmember Tstring)]
            [("RuntimeBase", [Evar "level"; Evar "errorCode"; Emove "loc"]);
             ("m_extension_name", [Evar "extension_name"]);
             ("m_version", [Evar "version"])]]
  | runtime.ExtensionNotTerminatingVersionString =>
      [ctor [("loc", PLogLocationInfo);
             ("extension_name", Pmember Tstring_view)]
            [("RuntimeBase", [Evar "level"; Evar "errorCode"; Emove "loc"]);
             ("m_extension_name", [Evar "extension_name"])]]
  | runtime.ExtensionNotTerminatingCallExtensionBufferString =>
      [ctor [("loc", PLogLocationInfo);
             ("extension_name", Pmember Tstring_view)]
            [("RuntimeBase", [Evar "level"; Evar "errorCode"; Emove "loc"]);
             ("m_extension_name", [Evar "extension_name"])]]
  | runtime.ExtensionNotTerminatingCallExtensionArgBufferString =>
      [ctor [("loc", PLogLocationInfo);
             ("extension_name", Pmember Tstring_view)]
            [("RuntimeBase", [Evar "level"; Evar "errorCode"; Emove "loc"]);
             ("m_extension_name", [Evar "extension_name"])]]
  | runtime.LibraryNameContainsPath =>
      [ctor [("loc", PLogLocationInfo);
             ("extension_name", Pmember Tstring_view)]
            [("RuntimeBase", [Evar "level"; Evar "errorCode"; Emove "loc"]);
             ("m_extension_name", [Evar "extension_name"])]]
  | runtime.ReturningEmptyString =>
      [ctor [("loc", PLogLocationInfo)]
            [("RuntimeBase", [Evar "level"; Evar "errorCode"; Emove "loc"])]]
  | runtime.ExtensionRuntimeError =>
      [ctor [("loc", PLogLocationInfo);
             ("extension_name", Pmember Tstring_view);
             ("what", Pmember Tstring_view)]
            [("RuntimeBase", [Evar "level"; Evar "errorCode"; Emove "loc"]);
             ("m_extension_name", [Evar "extension_name"]);
             ("m_what", [Evar "what"])]]
  | runtime.FileNotFound =>
      [ctor [("loc", PLogLocationInfo); ("filename", Pmember Tstring_view)]
            [("RuntimeBase", [Evar "level"; Evar "errorCode"; Emove "loc"]);
             ("m_filename", [Evar "filename"])]]
  | runtime.ScopeNameAlreadySet =>
      [ctor [("loc", PLogLocationInfo)]
            [("RuntimeBase", [Evar "level"; Evar "errorCode"; Emove "loc"])]]
  | runtime.ScriptNameAlreadySet =>
      [ctor [("loc", PLogLocationInfo)]
            [("RuntimeBase", [Evar "level"; Evar "errorCode"; Emove "loc"])]]
  | runtime.ReturningEmptyScriptHandle =>
      [ctor [("loc", PLogLocationInfo)]
            [("RuntimeBase", [Evar "level"; Evar "errorCode"; Emove "loc"])]]
  | runtime.ReturningErrorCode =>
      [ctor [("loc", PLogLocationInfo); ("error_code", Pmember Tstring_view)]
            [("RuntimeBase", [Evar "level"; Evar "errorCode"; Emove "loc"]);
             ("m_error_code", [Evar "error_code"])]]
  | runtime.ExpectedSubArrayTypeMissmatch =>
      [ctor [("loc", PLogLocationInfo); ("position", Pmember Tvector_size_t);
             ("expected", Pmember Tvector_sqf_type);
             ("got", Pmember Tsqf_type)]
            [("RuntimeBase", [Evar "level"; Evar "errorCode"; Emove "loc"]);
             ("m_position", [Evar "position"]);
             ("m_expected", [Evar "expected"]); ("m_got", [Evar "got"])];
       ctor [("loc", PLogLocationInfo); ("position", Parray_size_t);
             ("expected", Pmember Tsqf_type); ("got", Pmember Tsqf_type)]
            [("ExpectedSubArrayTypeMissmatch",
              [Evar "loc"; Evar "position"; Earray1 "expected"; Evar "got"])];
       ctor [("loc", PLogLocationInfo); ("position", Parray_size_t);
             ("expected", Parray_sqf_type); ("got", Pmember Tsqf_type)]
            [("ExpectedSubArrayTypeMissmatch",
              [Evar "loc"; Evector_size_t "position"; Evector_sqf_type "expected"; Evar "got"])]]
  | runtime.ExpectedSubArrayTypeMissmatchWeak =>
      [ctor [("loc", PLogLocationInfo); ("position", Pmember Tvector_size_t);
             ("expected", Pmember Tvector_sqf_type);
             ("got", Pmember Tsqf_type)]
            [("RuntimeBase", [Evar "level"; Evar "errorCode"; Emove "loc"]);
             ("m_position", [Evar "position"]);
             ("m_expected", [Evar "expected"]); ("m_got", [Evar "got"])];
       ctor [("loc", PLogLocationInfo); ("position", Parray_size_t);
             ("expected", Pmember Tsqf_type); ("got", Pmember Tsqf_type)]
            [("ExpectedSubArrayTypeMissmatchWeak",
              [Evar "loc"; Evar "position"; Earray1 "expected"; Evar "got"])];
       ctor [("loc", PLogLocationInfo); ("position", Parray_size_t);
             ("expected", Parray_sqf_type); ("got", Pmember Tsqf_type)]
            [("ExpectedSubArrayTypeMissmatchWeak",
              [Evar "loc"; Evector_size_t "position"; Evector_sqf_type "expected"; Evar "got"])]]
  | runtime.ErrorMessage =>
      [ctor [("loc", PLogLocationInfo); ("source", Pmember Tstring_view);
             ("message", Pmember Tstring)]
            [("RuntimeBase", [Evar "level"; Evar "errorCode"; Emove "loc"]);
             ("m_source", [Evar "source"]); ("m_message", [Evar "message"])]]
  | runtime.FileSystemDisabled =>
      [ctor [("loc", PLogLocationInfo)]
            [("RuntimeBase", [Evar "level"; Evar "errorCode"; Emove "loc"])]]
  | runtime.NetworkingDisabled =>
      [ctor [("loc", PLogLocationInfo)]
            [("RuntimeBase", [Evar "level"; Evar "errorCode"; Emove "loc"])]]
  | runtime.AlreadyConnected =>
      [ctor [("loc", PLogLocationInfo)]
            [("RuntimeBase", [Evar "level"; Evar "errorCode"; Emove "loc"])]]
  | runtime.NetworkingFormatMissmatch =>
      [ctor [("loc", PLogLocationInfo); ("provided", Pmember Tstring_view)]
            [("RuntimeBase", [Evar "level"; Evar "errorCode"; Emove "loc"]);
             ("m_provided", [Evar "provided"])]]
  | runtime.FailedToEstablishConnection =>
      [ctor [("loc", PLogLocationInfo)]
            [("RuntimeBase", [Evar "level"; Evar "errorCode"; Emove "loc"])]]
  | runtime.ExpectedArrayToHaveElements =>
      [ctor [("loc", PLogLocationInfo)]
            [("RuntimeBase", [Evar "level"; Evar "errorCode"; Emove "loc"])]]
  | runtime.ExpectedArrayToHaveElementsWeak =>
      [ctor [("loc", PLogLocationInfo)]
            [("RuntimeBase", [Evar "level"; Evar "errorCode"; Emove "loc"])]]
  | runtime.ClipboardDisabled =>
      [ctor [("loc", PLogLocationInfo)]
            [("RuntimeBase", [Evar "level"; Evar "errorCode"; Emove "loc"])]]
  | runtime.FailedToCopyToClipboard =>
      [ctor [("loc", PLogLocationInfo)]
            [("RuntimeBase", [Evar "level"; Evar "errorCode"; Emove "loc"])]]
  | runtime.FormatInvalidPlaceholder =>
      [ctor [("loc", PLogLocationInfo); ("placeholder", Pmember Tchar);
             ("index", Pmember Tsize_t)]
            [("RuntimeBase", [Evar "level"; Evar "errorCode"; Emove "loc"]);
             ("m_placeholder", [Evar "placeholder"]);
             ("m_index", [Evar "index"])]]
  | runtime.ZeroDivisor =>
      [ctor [("loc", PLogLocationInfo)]
            [("RuntimeBase", [Evar "level"; Evar "errorCode"; Emove "loc"])]]
  | runtime.MarkerNotExisting =>
      [ctor [("loc", PLogLocationInfo); ("marker_name", Pmember Tstring_view)]
            [("RuntimeBase", [Evar "level"; Evar "errorCode"; Emove "loc"]);
             ("m_marker_name", [Evar "marker_name"])]]
  | runtime.ReturningDefaultArray =>
      [ctor [("loc", PLogLocationInfo); ("size", Pmember Tsize_t)]
            [("RuntimeBase", [Evar "level"; Evar "errorCode"; Emove "loc"]);
             ("m_size", [Evar "size"])]]
  | runtime.ReturningScalarZero =>
      [ctor [("loc", PLogLocationInfo)]
            [("RuntimeBase", [Evar "level"; Evar "errorCode"; Emove "loc"])]]
  | runtime.ExpectedNonNullValue =>
      [ctor [("loc", PLogLocationInfo)]
            [("RuntimeBase", [Evar "level"; Evar "errorCode"; Emove "loc"])]]
  | runtime.ExpectedNonNullValueWeak =>
      [ctor [("loc", PLogLocationInfo)]
            [("RuntimeBase", [Evar "level"; Evar "errorCode"; Emove "loc"])]]
  | runtime.ConfigEntryNotFound =>
      [ctor [("loc", PLogLocationInfo);
             ("config_path", Pmember Tvector_string);
             ("config_name", Pmember Tstring)]
            [("RuntimeBase", [Evar "level"; Evar "errorCode"; Emove "loc"]);
             ("m_config_path", [Evar "config_path"]);
             ("m_config_name", [Evar "config_name"])];
       ctor [("loc", PLogLocationInfo); ("config_path", Parray_string);
             ("config_name", Pmember Tstring)]
            [("ConfigEntryNotFound",
              [Evar "loc"; Evector_string "config_path"; Evar "config_name"])]]
  | runtime.ConfigEntryNotFoundWeak =>
      [ctor [("loc", PLogLocationInfo);
             ("config_path", Pmember Tvector_string);
             ("config_name", Pmember Tstring)]
            [("RuntimeBase", [Evar "level"; Evar "errorCode"; Emove "loc"]);
             ("m_config_path", [Evar "config_path"]);
             ("m_config_name", [Evar "config_name"])];
       ctor [("loc", PLogLocationInfo); ("config_path", Parray_string);
             ("config_name", Pmember Tstring)]
            [("ConfigEntryNotFoundWeak",
              [Evar "loc"; Evector_string "config_path"; Evar "config_name"])]]
  | runtime.ExpectedVehicle =>
      [ctor [("loc", PLogLocationInfo)]
            [("RuntimeBase", [Evar "level"; Evar "errorCode"; Emove "loc"])]]
  | runtime.ExpectedVehicleWeak =>
      [ctor [("loc", PLogLocationInfo)]
            [("RuntimeBase", [Evar "level"; Evar "errorCode"; Emove "loc"])]]
  | runtime.ExpectedUnit =>
      [ctor [("loc", PLogLocationInfo)]
            [("RuntimeBase", [Evar "level"; Evar "errorCode"; Emove "loc"])]]
  | runtime.ExpectedUnitWeak =>
      [ctor [("loc", PLogLocationInfo)]
            [("RuntimeBase", [Evar "level"; Evar "errorCode"; Emove "loc"])]]
  | runtime.ReturningFalse =>
      [ctor [("loc", PLogLocationInfo)]
            [("RuntimeBase", [Evar "level"; Evar "errorCode"; Emove "loc"])]]
  | runtime.MarkerAlreadyExisting =>
      [ctor [("loc", PLogLocationInfo); ("marker_name", Pmember Tstring_view)]
            [("RuntimeBase", [Evar "level"; Evar "errorCode"; Emove "loc"]);
             ("m_marker_name", [Evar "marker_name"])]]
  | runtime.InvalidMarkershape =>
      [ctor [("loc", PLogLocationInfo); ("shape_name", Pmember Tstring_view)]
            [("RuntimeBase", [Evar "level"; Evar "errorCode"; Emove "loc"]);
             ("m_shape_name", [Evar "shape_name"])]]
  | runtime.TypeMissmatch =>
      [ctor [("loc", PLogLocationInfo); ("expected", Pmember Tsqf_type);
             ("got", Pmember Tsqf_type)]
            [("RuntimeBase", [Evar "level"; Evar "errorCode"; Emove "loc"]);
             ("m_expected", [Evar "expected"]); ("m_got", [Evar "got"])]]
  | runtime.TypeMissmatchWeak =>
      [ctor [("loc", PLogLocationInfo); ("expected", Pmember Tsqf_type);
             ("got", Pmember Tsqf_type)]
            [("RuntimeBase", [Evar "level"; Evar "errorCode"; Emove "loc"]);
             ("m_expected", [Evar "expected"]); ("m_got", [Evar "got"])]]
  | runtime.VariableNotFound =>
      [ctor [("loc", PLogLocationInfo);
             ("variable_name", Pmember Tstring_view)]
            [("RuntimeBase", [Evar "level"; Evar "errorCode"; Emove "loc"]);
             ("m_variable_name", [Evar "variable_name"])]]
  | runtime.StackCorruptionMissingValues =>
      [ctor [("loc", PLogLocationInfo); ("expected", Pmember Tsize_t);
             ("got", Pmember Tsize_t)]
            [("RuntimeBase", [Evar "level"; Evar "errorCode"; Emove "loc"]);
             ("m_expected", [Evar "expected"]); ("m_got", [Evar "got"])]]
  | runtime.NoValueFoundForRightArgument =>
      [ctor [("loc", PLogLocationInfo)]
            [("RuntimeBase", [Evar "level"; Evar "errorCode"; Emove "loc"])]]
  | runtime.NoValueFoundForRightArgumentWeak =>
      [ctor [("loc", PLogLocationInfo)]
            [("RuntimeBase", [Evar "level"; Evar "errorCode"; Emove "loc"])]]
  | runtime.NoValueFoundForLeftArgument =>
      [ctor [("loc", PLogLocationInfo)]
            [("RuntimeBase", [Evar "level"; Evar "errorCode"; Emove "loc"])]]
  | runtime.NoValueFoundForLeftArgumentWeak =>
      [ctor [("loc", PLogLocationInfo)]
            [("RuntimeBase", [Evar "level"; Evar "errorCode"; Emove "loc"])]]
  | runtime.UnknownInputTypeCombinationBinary =>
      [ctor [("loc", PLogLocationInfo); ("left_got", Pmember Tsqf_type);
             ("op", Pmember Tstring_view); ("right_got", Pmember Tsqf_type)]
            [("RuntimeBase", [Evar "level"; Evar "errorCode"; Emove "loc"]);
             ("m_operator", [Evar "op"]); ("m_left_got", [Evar "left_got"]);
             ("m_right_got", [Evar "right_got"])];
       ctor [("loc", PLogLocationInfo); ("op", Pmember Tstring_view);
             ("right_got", Pmember Tsqf_type)]
            [("RuntimeBase", [Evar "level"; Evar "errorCode"; Emove "loc"]);
             ("m_operator", [Evar "op"]); ("m_left_got", [ENA]);
             ("m_right_got", [Evar "right_got"])]]
  | runtime.FoundNoValue =>
      [ctor [("loc", PLogLocationInfo)]
            [("RuntimeBase", [Evar "level"; Evar "errorCode"; Emove "loc"])]]
  | runtime.CallstackFoundNoValue =>
      [ctor [("loc", PLogLocationInfo);
             ("callstack_name", Pmember Tstring_view)]
            [("RuntimeBase", [Evar "level"; Evar "errorCode"; Emove "loc"]);
             ("m_callstack_name", [Evar "callstack_name"])]]
  | runtime.CallstackFoundNoValueWeak =>
      [ctor [("loc", PLogLocationInfo);
             ("callstack_name", Pmember Tstring_view)]
            [("RuntimeBase", [Evar "level"; Evar "errorCode"; Emove "loc"]);
             ("m_callstack_name", [Evar "callstack_name"])]]
  | runtime.GroupNotEmpty =>
      [ctor [("loc", PLogLocationInfo); ("group_name", Pmember Tstring_view)]
            [("RuntimeBase", [Evar "level"; Evar "errorCode"; Emove "loc"]);
             ("m_group_name", [Evar "group_name"])]]
  | runtime.ForStepVariableTypeMissmatch =>
      [ctor [("loc", PLogLocationInfo);
             ("variable_name", Pmember Tstring_view);
             ("expected", Pmember Tsqf_type); ("got", Pmember Tsqf_type)]
            [("RuntimeBase", [Evar "level"; Evar "errorCode"; Emove "loc"]);
             ("m_variable_name", [Evar "variable_name"]);
             ("m_expected", [Evar "expected"]); ("m_got", [Evar "got"])]]
  | runtime.ForStepNoWorkShouldBeDone =>
      [ctor [("loc", PLogLocationInfo); ("step", Pmember Tdouble);
             ("from", Pmember Tdouble); ("to", Pmember Tdouble)]
            [("RuntimeBase", [Evar "level"; Evar "errorCode"; Emove "loc"]);
             ("m_step", [Evar "step"]); ("m_from", [Evar "from"]);
             ("m_to", [Evar "to"])]]
  end.
Definition Kind_ctors (k : Kind) : list Ctor :=
  match k with
  | Preprocessor c => preprocessor_ctors c
  | Assembly c => assembly_ctors c
  | Sqf c => sqf_ctors c
  | Config c => config_ctors c
  | Linting c => linting_ctors c
  | Runtime c => runtime_ctors c
  end.

(** An argument of a constructor call. *)
Inductive ArgValue :=
  | Alevel (l : loglevel.t)
  | Aloc (loc : LogLocationInfo)
  | Amember (v : FieldValue)
  | Aarray_sqf_type (ts : list sqf_type)
  | Aarray_size_t (ns : list N)
  | Aarray_string (ss : list string).

Definition arg_type (a : ArgValue) : ParamType :=
  match a with
  | Alevel _ => Ploglevel
  | Aloc _ => PLogLocationInfo
  | Amember v => Pmember (type_of v)
  | Aarray_sqf_type _ => Parray_sqf_type
  | Aarray_size_t _ => Parray_size_t
  | Aarray_string _ => Parray_string
  end.

(** The first entry for a name in a list of named things. *)
Definition assoc {A} (x : string) (l : list (string * A)) : option A :=
  snd <$> List.find (λ p, bool_decide (p.1 = x)) l.

(** The parameters bound to the arguments of a call; the arguments have
    the types of the parameters. *)
Definition bind_params (ps : list (string * ParamType)) (args : list ArgValue)
  : option (list (string * ArgValue)) :=
  if decide (arg_type <$> args = ps.*2) then Some (zip ps.*1 args) else None.

(** How a member initialiser list starts: with the base class, followed
    by the initialisers of the members, or with the class itself and
    nothing else (a delegating constructor). *)
Definition classify (k : Kind) (ins : list (string * list Expr))
  : option (list Expr + list Expr * list (string * list Expr)) :=
  match ins with
  | [] => None
  | (n, a) :: rest =>
      if decide (n = Domain_base_name (Kind_domain k)) then Some (inr (a, rest))
      else if decide (n = Kind_name k ∧ rest = []) then Some (inl a)
      else None
  end.

(** The constructor of the base class of a namespace,
    [Base(loglevel level, size_t errorCode, LogLocationInfo location)]. *)
Definition call_base (args : list ArgValue) : option DomainBase :=
  match args with
  | [Alevel l; Amember (Vsize_t c); Aloc loc] => Some (DomainBase_ctor l c loc)
  | _ => None
  end.

(** Overload resolution among the constructors of a class: the
    constructor whose parameter types are the types of the arguments. *)
Definition resolve (cs : list Ctor) (ts : list ParamType) : option Ctor :=
  List.find (λ c, bool_decide ((params c).*2 = ts)) cs.

Section Constructors.

(** The enumerator [::sqf::type::NA] of [type.h]. *)
Variable NA : sqf_type.

(** A name in a member initialiser list: a parameter, and otherwise a
    name of the class scope, where [level] and [errorCode] are the
    private constants of the class. *)
Definition lookup_name (k : Kind) (env : list (string * ArgValue)) (x : string)
  : option ArgValue :=
  match assoc x env with
  | Some a => Some a
  | None =>
      if decide (x = "level") then Some (Alevel (Kind_level k))
      else if decide (x = "errorCode") then Some (Amember (Vsize_t (Kind_errorCode k)))
      else None
  end.

Definition eval_expr (k : Kind) (env : list (string * ArgValue)) (e : Expr)
  : option ArgValue :=
  match e with
  | Evar x | Emove x => lookup_name k env x
  | Earray1 x =>
      match lookup_name k env x with
      | Some (Amember (Vsqf_type t)) => Some (Aarray_sqf_type [t])
      | _ => None
      end
  | Evector_sqf_type x =>
      match lookup_name k env x with
      | Some (Aarray_sqf_type ts) => Some (Amember (Vvector_sqf_type ts))
      | _ => None
      end
  | Evector_size_t x =>
      match lookup_name k env x with
      | Some (Aarray_size_t ns) => Some (Amember (Vvector_size_t ns))
      | _ => None
      end
  | Evector_string x =>
      match lookup_name k env x with
      | Some (Aarray_string ss) => Some (Amember (Vvector_string ss))
      | _ => None
      end
  | ENA => Some (Amember (Vsqf_type NA))
  end.

(** The value a member is initialised with: its initialiser has one
    argument, of the type of the member.  A member without initialiser
    gets no value. *)
Definition init_member (k : Kind) (env : list (string * ArgValue))
    (mems : list (string * list Expr)) (f : string * FieldType)
  : option FieldValue :=
  match assoc f.1 mems with
  | Some [e] =>
      match eval_expr k env e with
      | Some (Amember v) => if decide (type_of v = f.2) then Some v else None
      | _ => None
      end
  | _ => None
  end.

(** A call of constructor [c] of class [k]: bind the parameters; then
    either construct the base and initialise the members in declaration
    order, or evaluate the arguments of the delegation and call the
    constructor they select.  [fuel] bounds the number of delegations. *)
Fixpoint call_ctor (fuel : nat) (k : Kind) (c : Ctor) (args : list ArgValue)
  : option LogMessage :=
  env ← bind_params (params c) args;
  match classify k (inits c) with
  | Some (inr (bargs, mems)) =>
      bvals ← mapM (eval_expr k env) bargs;
      b ← call_base bvals;
      vs ← mapM (init_member k env mems) (Kind_fields k);
      Some {| dynamic_type := k; domain_base := b; members := vs |}
  | Some (inl dargs) =>
      match fuel with
      | 0 => None
      | S fuel' =>
          dvals ← mapM (eval_expr k env) dargs;
          c' ← resolve (Kind_ctors k) (arg_type <$> dvals);
          call_ctor fuel' k c' dvals
      end
  | None => None
  end.

(** A constructor call in a program: a class has no more delegations in
    a row than it has constructors. *)
Definition new_message (k : Kind) (c : Ctor) (args : list ArgValue)
  : option LogMessage :=
  call_ctor (length (Kind_ctors k)) k c args.

End Constructors.

(** *** Static checks on the constructors *)

(** The type of a name in a member initialiser list. *)
Definition type_name (ps : list (string * ParamType)) (x : string)
  : option ParamType :=
  match assoc x ps with
  | Some t => Some t
  | None =>
      if decide (x = "level") then Some Ploglevel
      else if decide (x = "errorCode") then Some (Pmember Tsize_t)
      else None
  end.

Definition type_expr (ps : list (string * ParamType)) (e : Expr)
  : option ParamType :=
  match e with
  | Evar x | Emove x => type_name ps x
  | Earray1 x =>
      match type_name ps x with
      | Some (Pmember Tsqf_type) => Some Parray_sqf_type
      | _ => None
      end
  | Evector_sqf_type x =>
      match type_name ps x with
      | Some Parray_sqf_type => Some (Pmember Tvector_sqf_type)
      | _ => None
      end
  | Evector_size_t x =>
      match type_name ps x with
      | Some Parray_size_t => Some (Pmember Tvector_size_t)
      | _ => None
      end
  | Evector_string x =>
      match type_name ps x with
      | Some Parray_string => Some (Pmember Tvector_string)
      | _ => None
      end
  | ENA => Some (Pmember Tsqf_type)
  end.

(** A member has an initialiser with one argument of its own type. *)
Definition member_ok (ps : list (string * ParamType))
    (mems : list (string * list Expr)) (f : string * FieldType) : bool :=
  match assoc f.1 mems with
  | Some [e] => bool_decide (type_expr ps e = Some (Pmember f.2))
  | _ => false
  end.

(** The check of one constructor: its first parameter is
    [LogLocationInfo loc]; a constructor that initialises passes
    [level], [errorCode] and [std::move(loc)] to the base, has no
    parameter that hides the two constants, and initialises every
    member of the class; a delegating constructor passes [loc] on and
    selects a constructor that passes the check in turn. *)
Fixpoint ctor_ok (fuel : nat) (k : Kind) (c : Ctor) : bool :=
  bool_decide (head (params c) = Some ("loc", PLogLocationInfo))
  && match classify k (inits c) with
     | Some (inr (bargs, mems)) =>
         bool_decide (bargs = [Evar "level"; Evar "errorCode"; Emove "loc"])
         && bool_decide ("level" ∉ (params c).*1)
         && bool_decide ("errorCode" ∉ (params c).*1)
         && forallb (member_ok (params c) mems) (Kind_fields k)
     | Some (inl dargs) =>
         bool_decide (head dargs = Some (Evar "loc"))
         && match fuel with
            | 0 => false
            | S fuel' =>
                match mapM (type_expr (params c)) dargs with
                | Some ts =>
                    match resolve (Kind_ctors k) ts with
                    | Some c' => ctor_ok fuel' k c'
                    | None => false
                    end
                | None => false
                end
            end
     | None => false
     end.

(** A call of the [i]-th constructor of class [k], in declaration order. *)
Definition new_message_at (NA : sqf_type) (k : Kind) (i : nat)
    (args : list ArgValue) : option LogMessage :=
  c ← Kind_ctors k !! i; new_message NA k c args.

(** A member initialiser list with a class name replaced by another. *)
Definition rename_inits (old new : string) (ins : list (string * list Expr))
  : list (string * list Expr) :=
  (λ i, (if decide (i.1 = old) then new else i.1, i.2)) <$> ins.

(** The constructors of a Weak class are those of its Strong sibling
    with the class name replaced. *)
Definition sibling_ctors_check (s w : Kind) : bool :=
  if siblings s w then
    bool_decide (Kind_ctors w
                 = (λ c, ctor (params c)
                           (rename_inits (Kind_name s) (Kind_name w) (inits c)))
                   <$> Kind_ctors s)
  else true.

(** The parameter an initialiser argument names, if it is one. *)
Definition var_of (e : Expr) : option string :=
  match e with
  | Evar x | Emove x => Some x
  | _ => None
  end.

(** A constructor that takes, after [loc], one parameter per member, of
    the type of the member and in the order of the members, and
    initialises each member with its parameter. *)
Definition stores_in_order (k : Kind) (c : Ctor) : bool :=
  match classify k (inits c) with
  | Some (inr (_, mems)) =>
      bool_decide (NoDup (params c).*1)
      && bool_decide ((params c).*2
                      = PLogLocationInfo :: (Pmember <$> (Kind_fields k).*2))
      && bool_decide (NoDup mems.*1)
      && bool_decide (mems.*1 = (Kind_fields k).*1)
      && bool_decide (mapM (λ m, match m.2 with
                                 | [e] => var_of e
                                 | _ => None
                                 end) mems
                      = Some (tail (params c).*1))
  | _ => false
  end.

(** The first constructor of a class that stores in order. *)
Definition principal_ctor (k : Kind) : option Ctor :=
  List.find (stores_in_order k) (Kind_ctors k).

(** * Properties *)

(** ** The catalog *)

(** [all_kinds] lists every class of the catalog. *)
Lemma all_kinds_complete (k : Kind) : k ∈ all_kinds.
Proof.
  destruct k as [c|c|c|c|c|c]; destruct c;
    apply (bool_decide_unpack _); vm_compute; exact I.
Qed.

(** A property checked on every element of [all_kinds] holds of every
    class. *)
Lemma forallb_all_kinds (P : Kind → bool) :
  forallb P all_kinds = true → ∀ k, P k = true.
Proof.
  intros HP k. rewrite forallb_forall in HP.
  apply HP, list_elem_of_In, all_kinds_complete.
Qed.

Lemma forallb2_all_kinds (P : Kind → Kind → bool) :
  forallb (λ a, forallb (P a) all_kinds) all_kinds = true →
  ∀ a b, P a b = true.
Proof.
  intros HP a b.
  apply (forallb_all_kinds (P a)), (forallb_all_kinds _ HP).
Qed.

(** The catalog has 143 classes: 13, 22, 12, 12, 1 and 83 per namespace. *)
Lemma catalog_size :
  length all_kinds = 143
  ∧ length <$> [Preprocessor <$> preprocessor.all; Assembly <$> assembly.all;
                Sqf <$> sqf.all; Config <$> config.all;
                Linting <$> linting.all; Runtime <$> runtime.all]
    = [13; 22; 12; 12; 1; 83].
Proof. split; reflexivity. Qed.

(** No class is listed twice. *)
Lemma all_kinds_NoDup : NoDup all_kinds.
Proof. apply (bool_decide_unpack _). vm_compute. exact I. Qed.

(** Two classes that share their code, if any, are
    [runtime::MarkerAlreadyExisting] and [runtime::InvalidMarkershape]:
    every other code of the catalog belongs to one class only. *)
Lemma errorCode_collisions (a b : Kind) :
  a ≠ b → Kind_errorCode a = Kind_errorCode b → marker_pair a b = true.
Proof.
  intros Hne Heq.
  pose (P := λ a b : Kind,
    bool_decide (a = b)
    || negb (Kind_errorCode a =? Kind_errorCode b)%N
    || marker_pair a b).
  assert (HP : P a b = true).
  { apply forallb2_all_kinds. vm_compute. reflexivity. }
  unfold P in HP. rewrite Heq, N.eqb_refl in HP.
  rewrite (bool_decide_eq_false_2 _ Hne) in HP. exact HP.
Qed.

(** C1: the claim that no two classes of the catalog share a code fails
    on the code: the distinct classes [runtime::MarkerAlreadyExisting]
    and [runtime::InvalidMarkershape] both carry the code 60067. *)
Theorem errorCode_60067_shared :
  Runtime runtime.MarkerAlreadyExisting ≠ Runtime runtime.InvalidMarkershape
  ∧ Kind_errorCode (Runtime runtime.MarkerAlreadyExisting) = 60067%N
  ∧ Kind_errorCode (Runtime runtime.InvalidMarkershape) = 60067%N
  ∧ ¬ (∀ a b : Kind, a ≠ b → Kind_errorCode a ≠ Kind_errorCode b).
Proof.
  assert (Hne : Runtime runtime.MarkerAlreadyExisting
                ≠ Runtime runtime.InvalidMarkershape) by discriminate.
  repeat split; try reflexivity; try exact Hne.
  intros Huniq. exact (Huniq _ _ Hne eq_refl).
Qed.

(** C8: the code of every class lies in the block of its namespace
    (10xxx preprocessor, 20xxx assembly, 30xxx sqf, 40xxx config,
    50xxx linting, 60xxx runtime), and all codes lie between 10001 and
    60082, both of which are codes of the catalog. *)
Theorem errorCode_in_domain_block :
  (∀ k : Kind,
     in_block (Domain_block (Kind_domain k)) (Kind_errorCode k) = true
     ∧ (10001 ≤ Kind_errorCode k ≤ 60082)%N)
  ∧ Kind_errorCode (Preprocessor preprocessor.ArgCountMissmatch) = 10001%N
  ∧ Kind_errorCode (Runtime runtime.ForStepNoWorkShouldBeDone) = 60082%N.
Proof.
  split; [| split; reflexivity].
  intros k.
  pose (P := λ k : Kind,
    in_block (Domain_block (Kind_domain k)) (Kind_errorCode k)
    && (10001 <=? Kind_errorCode k)%N && (Kind_errorCode k <=? 60082)%N).
  assert (HP : P k = true).
  { apply forallb_all_kinds. vm_compute. reflexivity. }
  unfold P in HP.
  apply andb_true_iff in HP as [HP Hhi]. apply andb_true_iff in HP as [Hb Hlo].
  apply N.leb_le in Hhi, Hlo. auto.
Qed.

(** ** Message objects *)

(** A constructor call succeeds exactly on values that fit the members. *)
Lemma construct_is_Some (k : Kind) (loc : LogLocationInfo) (values : list FieldValue) :
  is_Some (construct k loc values) ↔ type_of <$> values = snd <$> Kind_fields k.
Proof.
  unfold construct. case_decide as Hty.
  - split; [intros _; exact Hty | intros _; eexists; reflexivity].
  - split; [intros [m Hm]; discriminate | intros Hty'; contradiction].
Qed.

(** C7: whatever location and member values a message of class [k] is
    constructed with, the object exists, is of class [k], and
    [getLevel] and [getErrorCode] return the constants [level] and
    [errorCode] of [k]. *)
Theorem getLevel_getErrorCode_fixed
    (k : Kind) (loc : LogLocationInfo) (values : list FieldValue) :
  type_of <$> values = snd <$> Kind_fields k →
  ∃ m, construct k loc values = Some m
       ∧ dynamic_type m = k
       ∧ getLevel m = Kind_level k
       ∧ getErrorCode m = Kind_errorCode k.
Proof.
  intros Hty. unfold construct. rewrite decide_True by exact Hty.
  eexists. split; [reflexivity |]. cbn. auto.
Qed.

Lemma getLevel_getErrorCode_fixed_witness :
  ∃ m, construct (Runtime runtime.VariableNotFound)
         {| path := "test.sqf"; line := Init 3; col := Init 7 |}
         [Vstring_view "_foo"] = Some m
       ∧ dynamic_type m = Runtime runtime.VariableNotFound
       ∧ getLevel m = loglevel.warning
       ∧ getErrorCode m = 60070%N.
Proof.
  apply (getLevel_getErrorCode_fixed (Runtime runtime.VariableNotFound)
           {| path := "test.sqf"; line := Init 3; col := Init 7 |}
           [Vstring_view "_foo"]).
  reflexivity.
Defined.

(** Level and code of a constructed message do not depend on the
    location or the member values. *)
Lemma getLevel_getErrorCode_payload_independent
    (k : Kind) (loc1 loc2 : LogLocationInfo) (vs1 vs2 : list FieldValue)
    (m1 m2 : LogMessage) :
  construct k loc1 vs1 = Some m1 → construct k loc2 vs2 = Some m2 →
  getLevel m1 = getLevel m2 ∧ getErrorCode m1 = getErrorCode m2.
Proof.
  unfold construct. intros H1 H2.
  case_decide; [| discriminate]. case_decide; [| discriminate].
  injection H1 as <-. injection H2 as <-. split; reflexivity.
Qed.

(** ** The logger *)

Lemma subscript_lt_6 (l : loglevel.t) : subscript l < 6.
Proof. destruct l; vm_compute; lia. Qed.

Lemma subscript_inj (l l' : loglevel.t) : subscript l = subscript l' → l = l'.
Proof. destruct l, l'; vm_compute; congruence. Qed.

Lemma Logger_ctor_wf : Logger_wf Logger_ctor.
Proof. reflexivity. Qed.

Lemma setEnabled_wf (lg lg' : Logger) (l : loglevel.t) (b : bool) :
  Logger_wf lg → setEnabled lg l b = Some lg' → Logger_wf lg'.
Proof.
  unfold setEnabled, Logger_wf. intros Hwf Hset.
  case_decide; [| discriminate]. injection Hset as <-. cbn.
  rewrite length_insert. exact Hwf.
Qed.

(** C6: in a freshly constructed logger the gate of each of the six
    levels is open. *)
Theorem Logger_ctor_all_enabled (l : loglevel.t) :
  isEnabled Logger_ctor l = Some true.
Proof. destruct l; reflexivity. Qed.

(** C10: [loglevelstring] returns the five-character tag of each of the
    six enumerators, the six tags are pairwise distinct, and every
    value that is no enumerator yields ["[???]"]. *)
Theorem loglevelstring_total :
  (loglevelstring ∘ loglevel.underlying) <$> loglevel.all
    = ["[FAT]"; "[ERR]"; "[WRN]"; "[INF]"; "[VBS]"; "[TRC]"]
  ∧ NoDup ((loglevelstring ∘ loglevel.underlying) <$> loglevel.all)
  ∧ (∀ l : loglevel.t, String.length (loglevelstring (loglevel.underlying l)) = 5)
  ∧ (∀ l l' : loglevel.t,
       loglevelstring (loglevel.underlying l) = loglevelstring (loglevel.underlying l')
       → l = l')
  ∧ (∀ v : Z, (∀ l : loglevel.t, loglevel.underlying l ≠ v)
              → loglevelstring v = "[???]").
Proof.
  split; [reflexivity |].
  split; [apply (bool_decide_unpack _); vm_compute; exact I |].
  split; [intros l; destruct l; reflexivity |].
  split; [intros l l'; destruct l, l'; cbn; congruence |].
  intros v Hv.
  assert (H0 := Hv loglevel.fatal). assert (H1 := Hv loglevel.error).
  assert (H2 := Hv loglevel.warning). assert (H3 := Hv loglevel.info).
  assert (H4 := Hv loglevel.verbose). assert (H5 := Hv loglevel.trace).
  cbn in H0, H1, H2, H3, H4, H5.
  destruct v as [|p|p]; [congruence | | reflexivity].
  do 3 (try destruct p as [p|p|]; try reflexivity; try congruence).
Qed.

Lemma loglevelstring_total_witness :
  loglevelstring 6 = "[???]" ∧ loglevelstring (-1) = "[???]".
Proof.
  destruct loglevelstring_total as (_ & _ & _ & _ & Hdefault).
  split; apply Hdefault; intros l; destruct l; discriminate.
Defined.

(** C4: on a logger with its six gates, [setEnabled l b] succeeds, after
    it [isEnabled l] is [b], and [isEnabled l'] is what it was for every
    other level [l']; a sink call and an emit leave every gate as it
    was. *)
Theorem setEnabled_isEnabled (lg : Logger) (l : loglevel.t) (b : bool) :
  Logger_wf lg →
  (∃ lg', setEnabled lg l b = Some lg'
          ∧ Logger_wf lg'
          ∧ isEnabled lg' l = Some b
          ∧ ∀ l', l' ≠ l → isEnabled lg' l' = isEnabled lg l')
  ∧ (∀ W (impl : LoggerImpl W) (level : loglevel.t) (text : string) (st : State W),
       logger (Logger_log level text st) = logger st)
  ∧ (∀ W (impl : LoggerImpl W) (formatMessage : LogMessage → string)
       (m : LogMessage) (st st' : State W),
       CanLog_log formatMessage m st = Some st' → logger st' = logger st).
Proof.
  intros Hwf. split; [| split].
  - assert (Hlt : subscript l < length (enabledWarningLevels lg)).
    { rewrite Hwf. apply subscript_lt_6. }
    unfold setEnabled. rewrite decide_True by exact Hlt.
    eexists. split; [reflexivity |].
    split; [| split].
    + unfold Logger_wf. cbn. rewrite length_insert. exact Hwf.
    + unfold isEnabled. cbn. apply list_lookup_insert_eq. exact Hlt.
    + intros l' Hne. unfold isEnabled. cbn.
      apply list_lookup_insert_ne. intros Heq.
      apply Hne. symmetry. apply subscript_inj. exact Heq.
  - reflexivity.
  - intros W impl formatMessage m st st' Hlog. unfold CanLog_log in Hlog.
    destruct (isEnabled (logger st) (getLevel m)) as [[|]|]; simplify_eq; reflexivity.
Qed.

Lemma setEnabled_isEnabled_witness :
  ∃ lg', setEnabled Logger_ctor loglevel.warning false = Some lg'
         ∧ isEnabled lg' loglevel.warning = Some false
         ∧ isEnabled lg' loglevel.error = Some true.
Proof.
  destruct (setEnabled_isEnabled Logger_ctor loglevel.warning false Logger_ctor_wf)
    as [(lg' & Hset & _ & Hl & Hother) _].
  exists lg'. split; [exact Hset |]. split; [exact Hl |].
  rewrite (Hother loglevel.error) by discriminate.
  reflexivity.
Defined.

(** [isEnabled] reflects the most recent [setEnabled] for the level:
    a second [setEnabled] on the same level replaces the first. *)
Lemma setEnabled_twice (lg lg1 lg2 : Logger) (l : loglevel.t) (b1 b2 : bool) :
  setEnabled lg l b1 = Some lg1 → setEnabled lg1 l b2 = Some lg2 →
  setEnabled lg l b2 = Some lg2 ∧ isEnabled lg2 l = Some b2.
Proof.
  unfold setEnabled, isEnabled. intros H1 H2.
  destruct (decide (subscript l < length (enabledWarningLevels lg))) as [Hlt|];
    [| discriminate].
  injection H1 as <-. cbn in H2. rewrite length_insert in H2.
  rewrite decide_True in H2 by exact Hlt.
  injection H2 as <-. cbn. rewrite list_insert_insert_eq.
  split; [reflexivity |]. apply list_lookup_insert_eq. exact Hlt.
Qed.

(** ** The emitter and the sink *)

(** On a logger with its six gates every gate has a value, so an emit
    always returns. *)
Lemma isEnabled_is_Some (lg : Logger) (l : loglevel.t) :
  Logger_wf lg → is_Some (isEnabled lg l).
Proof.
  intros Hwf. apply lookup_lt_is_Some. rewrite Hwf. apply subscript_lt_6.
Qed.

Lemma CanLog_log_is_Some {W} `{LoggerImpl W} (formatMessage : LogMessage → string)
    (m : LogMessage) (st : State W) :
  Logger_wf (logger st) → is_Some (CanLog_log formatMessage m st).
Proof.
  intros Hwf. destruct (isEnabled_is_Some _ (getLevel m) Hwf) as [b Hb].
  unfold CanLog_log. rewrite Hb. destruct b; eexists; reflexivity.
Qed.

(** C2: an emit on a closed gate returns the state as it was: no sink
    call, no evaluation of [formatMessage]; on an open gate it evaluates
    [formatMessage] once and passes the level and the text to the
    sink. *)
Theorem CanLog_log_gated {W} `{LoggerImpl W} (formatMessage : LogMessage → string)
    (m : LogMessage) (st : State W) (b : bool) :
  isEnabled (logger st) (getLevel m) = Some b →
  ∃ st', CanLog_log formatMessage m st = Some st'
         ∧ if b then
             logger st' = logger st
             ∧ sink st' = log (getLevel m) (formatMessage m) (sink st)
             ∧ calls st' = (calls st ++ [CallFormatMessage m;
                                         CallLog (getLevel m) (formatMessage m)])%list
             ∧ format_calls (calls st') = format_calls (calls st) + 1
             ∧ sink_calls (calls st') = sink_calls (calls st) + 1
           else st' = st.
Proof.
  intros Hgate. unfold CanLog_log. rewrite Hgate.
  destruct b; eexists; (split; [reflexivity |]); [| reflexivity].
  cbn. rewrite <- app_assoc. cbn.
  split; [reflexivity |]. split; [reflexivity |]. split; [reflexivity |].
  unfold format_calls, sink_calls. rewrite !filter_app, !length_app.
  split; reflexivity.
Qed.

Lemma CanLog_log_gated_witness :
  (∃ st', CanLog_log (λ _, "text") a_warning
            {| logger := warning_disabled; sink := ""; calls := [] |} = Some st'
          ∧ st' = {| logger := warning_disabled; sink := ""; calls := [] |})
  ∧ (∃ st', CanLog_log (λ _, "text") an_error
              {| logger := warning_disabled; sink := ""; calls := [] |} = Some st'
            ∧ sink st' = "[ERR] text" ++ endl
            ∧ format_calls (calls st') = 1
            ∧ sink_calls (calls st') = 1).
Proof.
  split.
  - apply (CanLog_log_gated (λ _, "text") a_warning
             {| logger := warning_disabled; sink := ""; calls := [] |} false).
    reflexivity.
  - destruct (CanLog_log_gated (λ _, "text") an_error
                {| logger := warning_disabled; sink := ""; calls := [] |} true
                eq_refl) as (st' & Hlog & _ & Hsink & _ & Hfmt & Hsnk).
    exists st'. split; [exact Hlog |]. split; [exact Hsink |].
    split; [exact Hfmt | exact Hsnk].
Defined.

(** C3: a direct call of the console sink appends the line of the
    level and the text to the output, whatever the gates are, the gate
    of the level itself included: the output does not depend on the
    gates. *)
Theorem StdOutLogger_log_ungated
    (lg : Logger) (cout : string) (cs : list Call) (l : loglevel.t) (text : string) :
  let st' := Logger_log l text {| logger := lg; sink := cout; calls := cs |} in
  sink st' = cout ++ loglevelstring (loglevel.underlying l) ++ " " ++ text ++ endl
  ∧ calls st' = (cs ++ [CallLog l text])%list
  ∧ logger st' = lg
  ∧ ∀ lg' : Logger,
      sink (Logger_log l text {| logger := lg'; sink := cout; calls := cs |})
      = sink st'.
Proof. cbn. repeat split. Qed.

(** The sink writes a warning while the [warning] gate is closed. *)
Lemma StdOutLogger_log_closed_gate :
  isEnabled warning_disabled loglevel.warning = Some false
  ∧ sink (Logger_log loglevel.warning "text"
            {| logger := warning_disabled; sink := ""; calls := [] |})
    = "[WRN] text" ++ endl.
Proof. split; reflexivity. Qed.

(** All gates start open; after [warning] is closed, emitting a
    warning writes nothing, and emitting an error afterwards still
    writes its line. *)
Lemma emit_after_disabling_warning :
  ∃ st1 st2 st3,
    Logger_setEnabled loglevel.warning false
      {| logger := Logger_ctor; sink := ""; calls := [] |} = Some st1
    ∧ CanLog_log (λ _, "text") a_warning st1 = Some st2
    ∧ sink st2 = "" ∧ calls st2 = []
    ∧ CanLog_log (λ _, "text") an_error st2 = Some st3
    ∧ sink st3 = "[ERR] text" ++ endl
    ∧ calls st3 = [CallFormatMessage an_error; CallLog loglevel.error "text"].
Proof. do 3 eexists. repeat split. Qed.

(** ** Locations *)

(** C9: the default constructor sets [path] to the empty string and
    leaves [line] and [col] as the storage holds them; in a
    default-initialised object both are indeterminate, reading either
    has no defined result, and no converting constructor builds such a
    value. *)
Theorem default_initialized_indeterminate :
  (∀ s : storage,
     path (LogLocationInfo_default s) = ""
     ∧ line (LogLocationInfo_default s) = st_line s
     ∧ col (LogLocationInfo_default s) = st_col s)
  ∧ path default_initialized = ""
  ∧ line default_initialized = Indeterminate
  ∧ col default_initialized = Indeterminate
  ∧ read (line default_initialized) = None
  ∧ read (col default_initialized) = None
  ∧ ∀ s : LocationSource, build s ≠ default_initialized.
Proof.
  split; [intros s; repeat split |].
  do 5 (split; [reflexivity |]).
  intros [f|n|p|i]; cbn;
    unfold LogLocationInfo_of_preprocessorfileinfo, LogLocationInfo_of_astnode,
      LogLocationInfo_of_instruction, LogLocationInfo_of_position_info;
    try destruct (debug_position i); discriminate.
Qed.

(** The converting constructors initialise all three members. *)
Lemma build_initialized (s : LocationSource) :
  is_Some (read (line (build s))) ∧ is_Some (read (col (build s))).
Proof.
  destruct s as [f|n|p|i]; cbn;
    unfold LogLocationInfo_of_preprocessorfileinfo, LogLocationInfo_of_astnode,
      LogLocationInfo_of_instruction, LogLocationInfo_of_position_info;
    try destruct (debug_position i); cbn; split; eexists; reflexivity.
Qed.

(** An instruction without debug position yields the empty path,
    line 0 and column 0, as value-initialisation does. *)
Lemma LogLocationInfo_of_instruction_unknown :
  LogLocationInfo_of_instruction {| debug_position := None |} = value_initialized.
Proof. reflexivity. Qed.

(** ** Strong/Weak siblings *)

(** The catalog has 17 Strong/Weak pairs, all in the runtime namespace,
    and the Weak code is the Strong code plus one. *)
Lemma sibling_pairs_runtime :
  length sibling_pairs = 17
  ∧ Forall (λ p, Kind_domain p.1 = DRuntime
                 ∧ Kind_errorCode p.2 = (Kind_errorCode p.1 + 1)%N) sibling_pairs.
Proof.
  split; [reflexivity |].
  apply (bool_decide_unpack _). vm_compute. exact I.
Qed.

Lemma sibling_check_all (s w : Kind) : sibling_check s w = true.
Proof. apply forallb2_all_kinds. vm_compute. reflexivity. Qed.

(** C5: for every Strong/Weak pair [(s, w)] the two classes have the
    same members, [s] is of level [error] and [w] of level [warning],
    their codes differ, and whenever [s] can be constructed from a
    location and member values so can [w], both render the same text,
    and the console lines of the two differ in the tag only. *)
Theorem siblings_share_fields_and_wording (s w : Kind) :
  siblings s w = true →
  Kind_fields s = Kind_fields w
  ∧ Kind_level s = loglevel.error
  ∧ Kind_level w = loglevel.warning
  ∧ Kind_errorCode s ≠ Kind_errorCode w
  ∧ ∀ (format : LogLocationInfo → string) (wording : Kind → list FieldValue → string)
      (loc : LogLocationInfo) (values : list FieldValue) (ms : LogMessage),
      construct s loc values = Some ms →
      ∃ mw text,
        construct w loc values = Some mw
        ∧ templated_formatMessage format wording ms = text
        ∧ templated_formatMessage format wording mw = text
        ∧ (∀ cout, log (getLevel ms) text cout = cout ++ "[ERR] " ++ text ++ endl)
        ∧ (∀ cout, log (getLevel mw) text cout = cout ++ "[WRN] " ++ text ++ endl).
Proof.
  intros Hsib. pose proof (sibling_check_all s w) as Hchk.
  unfold sibling_check in Hchk. rewrite Hsib in Hchk.
  repeat (apply andb_true_iff in Hchk as [Hchk ?]).
  repeat match goal with
         | H : bool_decide _ = true |- _ => apply bool_decide_eq_true_1 in H
         | H : negb _ = true |- _ => apply negb_true_iff, N.eqb_neq in H
         end.
  rename Hchk into Hfields.
  repeat (split; [assumption |]).
  intros format wording loc values ms Hms.
  unfold construct in Hms. case_decide as Hty; [| discriminate].
  injection Hms as <-.
  unfold construct. rewrite decide_True by (rewrite <- Hfields; exact Hty).
  eexists. eexists. split; [reflexivity |].
  unfold templated_formatMessage, getLevel. cbn.
  split; [reflexivity |].
  split; [congruence |].
  split; intros cout; unfold log, StdOutLogger, StdOutLogger_log.
  - replace (Kind_level s) with loglevel.error by (symmetry; assumption).
    reflexivity.
  - replace (Kind_level w) with loglevel.warning by (symmetry; assumption).
    reflexivity.
Qed.

Lemma siblings_share_fields_and_wording_witness :
  ∃ ms mw text,
    ExpectedArraySizeMissmatch_ctor test_sqf_3_7 2 5 = Some ms
    ∧ ExpectedArraySizeMissmatchWeak_ctor test_sqf_3_7 2 5 = Some mw
    ∧ templated_formatMessage (λ _, "") (λ _ _, "expected 2 got 5") ms = text
    ∧ templated_formatMessage (λ _, "") (λ _ _, "expected 2 got 5") mw = text
    ∧ log (getLevel ms) text "" = "[ERR] expected 2 got 5" ++ endl
    ∧ log (getLevel mw) text "" = "[WRN] expected 2 got 5" ++ endl.
Proof.
  destruct (siblings_share_fields_and_wording
              (Runtime runtime.ExpectedArraySizeMissmatch)
              (Runtime runtime.ExpectedArraySizeMissmatchWeak) eq_refl)
    as (_ & _ & _ & _ & Hrender).
  destruct (Hrender (λ _, "") (λ _ _, "expected 2 got 5") test_sqf_3_7
              [Vsize_t 2; Vsize_t 2; Vsize_t 5] _ eq_refl)
    as (mw & text & Hmw & Hs & Hw & Herr & Hwrn).
  eexists. exists mw, text.
  split; [reflexivity |]. split; [exact Hmw |].
  split; [exact Hs |]. split; [exact Hw |].
  assert (Htext : text = "expected 2 got 5") by (rewrite <- Hs; reflexivity).
  rewrite Herr, Hwrn, Htext. split; reflexivity.
Defined.

(** * Further properties of the header *)

(** ** Runs of [setEnabled] *)

Lemma setEnabled_seq_last (ops : list (loglevel.t * bool)) (lg : Logger) :
  Logger_wf lg →
  ∃ lg', setEnabled_seq ops lg = Some lg'
         ∧ Logger_wf lg'
         ∧ ∀ l d, isEnabled lg l = Some d
                  → isEnabled lg' l = Some (last_setting l ops d).
Proof.
  revert lg. induction ops as [| [l0 b0] ops IH]; intros lg Hwf.
  - exists lg. cbn. auto.
  - assert (Hlt : subscript l0 < length (enabledWarningLevels lg)).
    { rewrite Hwf. apply subscript_lt_6. }
    pose (lg1 := {| enabledWarningLevels :=
                      <[subscript l0 := b0]> (enabledWarningLevels lg) |}).
    assert (Hset : setEnabled lg l0 b0 = Some lg1).
    { unfold setEnabled. rewrite decide_True by exact Hlt. reflexivity. }
    destruct (IH lg1 (setEnabled_wf _ _ _ _ Hwf Hset)) as (lg' & Hrun & Hwf' & Hlast).
    exists lg'. cbn. rewrite Hset. cbn. split; [exact Hrun |]. split; [exact Hwf' |].
    intros l d Hd. apply Hlast. unfold isEnabled, lg1. cbn.
    destruct (decide (l0 = l)) as [-> | Hne].
    + apply list_lookup_insert_eq. exact Hlt.
    + rewrite list_lookup_insert_ne; [exact Hd |].
      intros Heq. apply Hne, subscript_inj, Heq.
Qed.

(** X1: every run of [setEnabled] calls on a fresh logger succeeds and
    keeps the six gates; afterwards [isEnabled l] is the argument of the
    last call for [l], and [true] when the run has none. *)
Theorem setEnabled_seq_fresh (ops : list (loglevel.t * bool)) :
  ∃ lg, setEnabled_seq ops Logger_ctor = Some lg
        ∧ Logger_wf lg
        ∧ ∀ l, isEnabled lg l = Some (last_setting l ops true).
Proof.
  destruct (setEnabled_seq_last ops Logger_ctor Logger_ctor_wf)
    as (lg & Hrun & Hwf & Hlast).
  exists lg. split; [exact Hrun |]. split; [exact Hwf |].
  intros l. apply Hlast. destruct l; reflexivity.
Qed.

(** X2: two [setEnabled] calls for different levels commute, also in
    whether they are defined. *)
Theorem setEnabled_commute (lg : Logger) (l1 l2 : loglevel.t) (b1 b2 : bool) :
  l1 ≠ l2 →
  (lg' ← setEnabled lg l1 b1; setEnabled lg' l2 b2)
  = (lg' ← setEnabled lg l2 b2; setEnabled lg' l1 b1).
Proof.
  intros Hne. unfold setEnabled.
  destruct (decide (subscript l1 < length (enabledWarningLevels lg))) as [H1|H1];
  destruct (decide (subscript l2 < length (enabledWarningLevels lg))) as [H2|H2];
    cbn; rewrite ?length_insert;
    rewrite ?(decide_True _ _ H1), ?(decide_True _ _ H2),
            ?(decide_False _ _ H1), ?(decide_False _ _ H2); try reflexivity.
  do 2 f_equal. apply list_insert_insert_ne.
  intros Heq. apply Hne, subscript_inj. symmetry. exact Heq.
Qed.

Lemma setEnabled_commute_witness :
  (lg' ← setEnabled Logger_ctor loglevel.warning false;
   setEnabled lg' loglevel.trace false)
  = (lg' ← setEnabled Logger_ctor loglevel.trace false;
     setEnabled lg' loglevel.warning false).
Proof.
  apply (setEnabled_commute Logger_ctor loglevel.warning loglevel.trace false false).
  discriminate.
Defined.

(** X3: [setEnabled] with the value the gate already has leaves the
    logger as it is. *)
Theorem setEnabled_same (lg : Logger) (l : loglevel.t) (b : bool) :
  isEnabled lg l = Some b → setEnabled lg l b = Some lg.
Proof.
  unfold isEnabled, setEnabled. intros Hb.
  rewrite decide_True by (eapply lookup_lt_Some; exact Hb).
  rewrite list_insert_id by exact Hb. destruct lg; reflexivity.
Qed.

Lemma setEnabled_same_witness :
  setEnabled warning_disabled loglevel.warning false = Some warning_disabled.
Proof. apply (setEnabled_same warning_disabled loglevel.warning false). reflexivity. Defined.

(** X4: a second [setEnabled] for a level overwrites the first: the two
    calls are one call with the second value. *)
Theorem setEnabled_overwrite (lg : Logger) (l : loglevel.t) (b1 b2 : bool) :
  (lg' ← setEnabled lg l b1; setEnabled lg' l b2) = setEnabled lg l b2.
Proof.
  unfold setEnabled.
  destruct (decide (subscript l < length (enabledWarningLevels lg))) as [Hlt|Hge];
    cbn; [| reflexivity].
  rewrite length_insert, decide_True by exact Hlt.
  cbn. rewrite list_insert_insert_eq. reflexivity.
Qed.

(** X5: the six gates are all there is to a logger: two loggers with
    six gates that agree on [isEnabled] for every level are equal. *)
Theorem Logger_ext (a b : Logger) :
  Logger_wf a → Logger_wf b →
  (∀ l, isEnabled a l = isEnabled b l) → a = b.
Proof.
  destruct a as [xs], b as [ys]. unfold Logger_wf, isEnabled. cbn.
  intros Ha Hb Heq. f_equal.
  apply list_eq. intros i.
  destruct (decide (i < 6)) as [Hi | Hi].
  - assert (Hl : ∃ l, subscript l = i).
    { destruct i as [|[|[|[|[|[|i]]]]]]; [| | | | | | lia].
      - exists loglevel.fatal. reflexivity.
      - exists loglevel.error. reflexivity.
      - exists loglevel.warning. reflexivity.
      - exists loglevel.info. reflexivity.
      - exists loglevel.verbose. reflexivity.
      - exists loglevel.trace. reflexivity. }
    destruct Hl as [l <-]. apply Heq.
  - rewrite !lookup_ge_None_2 by lia. reflexivity.
Qed.

Lemma Logger_ext_witness :
  {| enabledWarningLevels := <[2 := false]> (enabledWarningLevels Logger_ctor) |}
  = warning_disabled.
Proof.
  apply Logger_ext; [reflexivity | reflexivity |].
  intros l. destruct l; reflexivity.
Defined.

(** ** Levels and subscripts *)

(** X6: the subscripts of the six enumerators are exactly the positions
    of the vector the constructor builds, each position belonging to one
    enumerator, in declaration order. *)
Theorem subscript_bijective :
  (∀ l : loglevel.t, loglevel.all !! subscript l = Some l)
  ∧ (∀ i : nat, i < length (enabledWarningLevels Logger_ctor)
                ↔ ∃ l : loglevel.t, subscript l = i)
  ∧ (∀ l l' : loglevel.t, subscript l = subscript l' → l = l').
Proof.
  split; [intros l; destruct l; reflexivity |].
  split; [| exact subscript_inj].
  intros i. split.
  - intros Hi. cbn in Hi.
    destruct i as [|[|[|[|[|[|i]]]]]]; [| | | | | | lia].
    + exists loglevel.fatal. reflexivity.
    + exists loglevel.error. reflexivity.
    + exists loglevel.warning. reflexivity.
    + exists loglevel.info. reflexivity.
    + exists loglevel.verbose. reflexivity.
    + exists loglevel.trace. reflexivity.
  - intros [l <-]. apply subscript_lt_6.
Qed.

(** X7: among the values of an [int], only the six enumerator values
    give a subscript inside a vector of six elements; a negative value
    wraps around to a subscript of at least [2^64 - 2^31]. *)
Theorem static_cast_size_t_in_range (v : Z) :
  (- 2 ^ 31 ≤ v < 2 ^ 31)%Z →
  (N.to_nat (static_cast_size_t v) < 6 ↔ (0 ≤ v ≤ 5)%Z)
  ∧ ((v < 0)%Z → (2 ^ 64 - 2 ^ 31 ≤ static_cast_size_t v)%N).
Proof.
  intros Hv. unfold static_cast_size_t.
  destruct (decide (0 ≤ v)%Z) as [Hpos | Hneg].
  - rewrite Z.mod_small by lia. split; [lia | lia].
  - assert (Hmod : (v mod 2 ^ 64 = v + 2 ^ 64)%Z).
    { symmetry. apply (Z.mod_unique v (2 ^ 64) (-1)); lia. }
    rewrite Hmod. split; [lia | lia].
Qed.

Lemma static_cast_size_t_in_range_witness :
  (N.to_nat (static_cast_size_t (-1)) < 6 ↔ (0 ≤ -1 ≤ 5)%Z)
  ∧ ((-1 < 0)%Z → (2 ^ 64 - 2 ^ 31 ≤ static_cast_size_t (-1))%N).
Proof. apply (static_cast_size_t_in_range (-1)). lia. Defined.

(** ** [loglevelstring] on arbitrary values *)

(** X8: the tag is ["[???]"] exactly for the values that are no
    enumerator: no enumerator is printed as unknown. *)
Theorem loglevelstring_unknown_iff (v : Z) :
  loglevelstring v = "[???]" ↔ ∀ l : loglevel.t, loglevel.underlying l ≠ v.
Proof.
  split.
  - intros Hv l <-. destruct l; discriminate.
  - intros Hv.
    assert (H0 := Hv loglevel.fatal). assert (H1 := Hv loglevel.error).
    assert (H2 := Hv loglevel.warning). assert (H3 := Hv loglevel.info).
    assert (H4 := Hv loglevel.verbose). assert (H5 := Hv loglevel.trace).
    cbn in H0, H1, H2, H3, H4, H5.
    destruct v as [|p|p]; [congruence | | reflexivity].
    do 3 (try destruct p as [p|p|]; try reflexivity; try congruence).
Qed.

(** X9: whatever value the argument holds, the tag has five characters,
    the first an opening and the last a closing bracket. *)
Theorem loglevelstring_shape (v : Z) :
  String.length (loglevelstring v) = 5
  ∧ String.get 0 (loglevelstring v) = Some "["%char
  ∧ String.get 4 (loglevelstring v) = Some "]"%char.
Proof.
  destruct v as [|p|p]; [repeat split | | repeat split].
  do 3 (try destruct p as [p|p|]; try (repeat split; reflexivity)).
Qed.

(** ** Codes and levels across the catalog *)

(** X10: apart from the pair [runtime::MarkerAlreadyExisting] and
    [runtime::InvalidMarkershape], the code determines the class. *)
Theorem errorCode_injective_but_markers (a b : Kind) :
  marker_pair a b = false → Kind_errorCode a = Kind_errorCode b → a = b.
Proof.
  intros Hpair Hcode. destruct (decide (a = b)) as [Heq | Hne]; [exact Heq |].
  pose proof (errorCode_collisions a b Hne Hcode) as Hcol. congruence.
Qed.

Lemma errorCode_injective_but_markers_witness :
  marker_pair (Runtime runtime.VariableNotFound) (Runtime runtime.VariableNotFound)
  = false
  ∧ Runtime runtime.VariableNotFound = Runtime runtime.VariableNotFound.
Proof.
  split; [reflexivity |].
  apply (errorCode_injective_but_markers (Runtime runtime.VariableNotFound)
           (Runtime runtime.VariableNotFound)); reflexivity.
Defined.

Lemma elem_of_codes_from (lo : N) (n : nat) (c : N) :
  c ∈ codes_from lo n ↔ (lo ≤ c < lo + N.of_nat n)%N.
Proof.
  unfold codes_from. rewrite list_elem_of_fmap. split.
  - intros (i & -> & Hi). apply elem_of_seq in Hi. lia.
  - intros Hc. exists (N.to_nat (c - lo)). split; [lia |].
    apply elem_of_seq. lia.
Qed.

(** X11: in every namespace the codes in use are exactly the codes from
    [bb001] up to the last one of the namespace: no code in between is
    left out. *)
Theorem errorCode_contiguous (d : Domain) (c : N) :
  (∃ k, Kind_domain k = d ∧ Kind_errorCode k = c)
  ↔ (Domain_block d * 1000 + 1 ≤ c ≤ Domain_last d)%N.
Proof.
  split.
  - intros (k & <- & <-).
    pose (P := λ k : Kind,
      (Domain_block (Kind_domain k) * 1000 + 1 <=? Kind_errorCode k)%N
      && (Kind_errorCode k <=? Domain_last (Kind_domain k))%N).
    assert (HP : P k = true) by (apply forallb_all_kinds; vm_compute; reflexivity).
    apply andb_true_iff in HP as [Hlo Hhi].
    apply N.leb_le in Hlo, Hhi. auto.
  - intros Hc.
    pose (lo := (Domain_block d * 1000 + 1)%N).
    pose (n := N.to_nat (Domain_last d - Domain_block d * 1000)).
    assert (Hin : c ∈ codes_from lo n).
    { apply elem_of_codes_from. unfold lo, n. destruct d; cbn in *; lia. }
    assert (Hall : forallb (λ c, existsb (λ k,
                      bool_decide (Kind_domain k = d)
                      && (Kind_errorCode k =? c)%N) all_kinds)
                     (codes_from lo n) = true).
    { unfold lo, n. destruct d; vm_compute; reflexivity. }
    rewrite forallb_forall in Hall.
    apply list_elem_of_In, Hall, existsb_exists in Hin as (k & _ & Hk).
    apply andb_true_iff in Hk as [Hd Hk].
    exists k. split; [apply bool_decide_eq_true_1 in Hd; exact Hd |].
    apply N.eqb_eq, Hk.
Qed.

(** X12: no class has level [trace]; outside the runtime namespace every
    class is an [error] or a [warning], and in the two parser namespaces
    every class is an [error]; the only [fatal] classes are
    [Stacktrace] and [MaximumInstructionCountReached], and the only
    [info] class is [InfoMessage]. *)
Theorem Kind_level_usage (k : Kind) :
  Kind_level k ≠ loglevel.trace
  ∧ (Kind_domain k ≠ DRuntime →
     Kind_level k = loglevel.error ∨ Kind_level k = loglevel.warning)
  ∧ (Kind_domain k = DSqf ∨ Kind_domain k = DConfig → Kind_level k = loglevel.error)
  ∧ (Kind_level k = loglevel.fatal →
     k = Runtime runtime.Stacktrace
     ∨ k = Runtime runtime.MaximumInstructionCountReached)
  ∧ (Kind_level k = loglevel.info → k = Runtime runtime.InfoMessage).
Proof.
  pose (P := λ k : Kind,
    bool_decide (Kind_level k ≠ loglevel.trace)
    && bool_decide (Kind_domain k ≠ DRuntime →
         Kind_level k = loglevel.error ∨ Kind_level k = loglevel.warning)
    && bool_decide (Kind_domain k = DSqf ∨ Kind_domain k = DConfig
                    → Kind_level k = loglevel.error)
    && bool_decide (Kind_level k = loglevel.fatal →
         k = Runtime runtime.Stacktrace
         ∨ k = Runtime runtime.MaximumInstructionCountReached)
    && bool_decide (Kind_level k = loglevel.info → k = Runtime runtime.InfoMessage)).
  assert (HP : P k = true) by (apply forallb_all_kinds; vm_compute; reflexivity).
  unfold P in HP.
  repeat (apply andb_true_iff in HP as [HP ?]).
  repeat match goal with
         | H : bool_decide _ = true |- _ => apply bool_decide_eq_true_1 in H
         end.
  auto.
Qed.

(** X13: a [MarkerAlreadyExisting] and an [InvalidMarkershape] message
    built from the same location and member values differ in their class
    only: either both constructions succeed or neither, and level, code,
    location and members of the two objects are equal. *)
Theorem marker_messages_alike (loc : LogLocationInfo) (values : list FieldValue) :
  (is_Some (construct (Runtime runtime.MarkerAlreadyExisting) loc values)
   ↔ is_Some (construct (Runtime runtime.InvalidMarkershape) loc values))
  ∧ ∀ m1 m2,
      construct (Runtime runtime.MarkerAlreadyExisting) loc values = Some m1 →
      construct (Runtime runtime.InvalidMarkershape) loc values = Some m2 →
      dynamic_type m1 ≠ dynamic_type m2
      ∧ getLevel m1 = getLevel m2
      ∧ getErrorCode m1 = getErrorCode m2
      ∧ domain_base m1 = domain_base m2
      ∧ members m1 = members m2.
Proof.
  split.
  - rewrite !construct_is_Some. reflexivity.
  - unfold construct. cbn. intros m1 m2 H1 H2.
    destruct (decide (type_of <$> values = [Tstring_view])); [| discriminate].
    injection H1 as <-. injection H2 as <-. cbn.
    split; [discriminate |]. repeat split.
Qed.

Lemma marker_messages_alike_witness :
  ∃ m1 m2,
    construct (Runtime runtime.MarkerAlreadyExisting) test_sqf_3_7
      [Vstring_view "circle"] = Some m1
    ∧ construct (Runtime runtime.InvalidMarkershape) test_sqf_3_7
        [Vstring_view "circle"] = Some m2
    ∧ getErrorCode m1 = getErrorCode m2
    ∧ members m1 = members m2.
Proof.
  do 2 eexists. split; [reflexivity |]. split; [reflexivity |].
  destruct (marker_messages_alike test_sqf_3_7 [Vstring_view "circle"])
    as [_ Halike].
  destruct (Halike _ _ eq_refl eq_refl) as (_ & _ & Hcode & _ & Hmem).
  split; [exact Hcode | exact Hmem].
Defined.

(** ** The constructors *)

Section ConstructorCalls.

Variable NA : sqf_type.

Lemma assoc_zip (ps : list (string * ParamType)) (args : list ArgValue) (x : string) :
  arg_type <$> args = ps.*2 →
  match assoc x ps with
  | Some t => ∃ a, assoc x (zip ps.*1 args) = Some a ∧ arg_type a = t
  | None => assoc x (zip ps.*1 args) = None
  end.
Proof.
  revert args. induction ps as [| [n t] ps IH]; intros args Hty.
  - reflexivity.
  - destruct args as [| a args]; [discriminate |].
    injection Hty as Ha Hty. specialize (IH args Hty).
    unfold assoc in *. cbn. case_bool_decide.
    + cbn. eauto.
    + exact IH.
Qed.

Lemma lookup_name_typed (k : Kind) (ps : list (string * ParamType))
    (args : list ArgValue) (env : list (string * ArgValue)) (x : string)
    (t : ParamType) :
  bind_params ps args = Some env → type_name ps x = Some t →
  ∃ a, lookup_name k env x = Some a ∧ arg_type a = t.
Proof.
  unfold bind_params, type_name, lookup_name. intros Hbind Hx.
  destruct (decide (arg_type <$> args = ps.*2)) as [Hty |]; [| discriminate].
  injection Hbind as <-.
  pose proof (assoc_zip ps args x Hty) as Hzip.
  destruct (assoc x ps) as [t' |].
  - destruct Hzip as (a & -> & Ha). injection Hx as <-. eauto.
  - rewrite Hzip. repeat case_decide; simplify_eq; eauto.
Qed.

Lemma eval_expr_typed (k : Kind) (ps : list (string * ParamType))
    (args : list ArgValue) (env : list (string * ArgValue)) (e : Expr)
    (t : ParamType) :
  bind_params ps args = Some env → type_expr ps e = Some t →
  ∃ a, eval_expr NA k env e = Some a ∧ arg_type a = t.
Proof.
  intros Hbind He.
  destruct e as [x | x | x | x | x | x |]; cbn in *;
    try (eapply lookup_name_typed; eassumption);
    try (destruct (type_name ps x) as [t' |] eqn:Hx; [| discriminate];
         destruct (lookup_name_typed k ps args env x t' Hbind Hx) as (a & -> & Ha);
         destruct t' as [| | ft | | |]; try discriminate;
         try (destruct ft; try discriminate);
         injection He as <-;
         destruct a as [| | v | | |]; try discriminate;
         try (destruct v; try discriminate);
         eauto).
  injection He as <-. eauto.
Qed.

Lemma mapM_eval_expr_typed (k : Kind) (ps : list (string * ParamType))
    (args : list ArgValue) (env : list (string * ArgValue)) (es : list Expr)
    (ts : list ParamType) :
  bind_params ps args = Some env → mapM (type_expr ps) es = Some ts →
  ∃ vs, mapM (eval_expr NA k env) es = Some vs ∧ arg_type <$> vs = ts.
Proof.
  intros Hbind Hes. apply mapM_Some_1 in Hes.
  induction Hes as [| e t es ts He _ (vs & Hvs & Hts)].
  - exists []. split; reflexivity.
  - destruct (eval_expr_typed k ps args env e t Hbind He) as (a & Ha & Hat).
    exists (a :: vs). split.
    + apply mapM_Some_2. constructor; [exact Ha |]. apply mapM_Some_1, Hvs.
    + cbn. congruence.
Qed.

Lemma assoc_not_in {A} (x : string) (l : list (string * A)) :
  x ∉ l.*1 → assoc x l = None.
Proof.
  induction l as [| [n v] l IH]; intros Hx; [reflexivity |].
  unfold assoc in *. cbn in *. apply not_elem_of_cons in Hx as [Hne Hx].
  rewrite bool_decide_eq_false_2 by congruence. apply IH, Hx.
Qed.

Lemma lookup_name_level (k : Kind) (ps : list (string * ParamType))
    (args : list ArgValue) :
  arg_type <$> args = ps.*2 → "level" ∉ ps.*1 →
  lookup_name k (zip ps.*1 args) "level" = Some (Alevel (Kind_level k)).
Proof.
  intros Hty Hx. unfold lookup_name.
  pose proof (assoc_zip ps args "level" Hty) as Hzip.
  rewrite (assoc_not_in _ _ Hx) in Hzip. rewrite Hzip. reflexivity.
Qed.

Lemma lookup_name_errorCode (k : Kind) (ps : list (string * ParamType))
    (args : list ArgValue) :
  arg_type <$> args = ps.*2 → "errorCode" ∉ ps.*1 →
  lookup_name k (zip ps.*1 args) "errorCode"
  = Some (Amember (Vsize_t (Kind_errorCode k))).
Proof.
  intros Hty Hx. unfold lookup_name.
  pose proof (assoc_zip ps args "errorCode" Hty) as Hzip.
  rewrite (assoc_not_in _ _ Hx) in Hzip. rewrite Hzip. reflexivity.
Qed.

Lemma init_member_typed (k : Kind) (ps : list (string * ParamType))
    (args : list ArgValue) (env : list (string * ArgValue))
    (mems : list (string * list Expr)) (f : string * FieldType) :
  bind_params ps args = Some env → member_ok ps mems f = true →
  ∃ v, init_member NA k env mems f = Some v ∧ type_of v = f.2.
Proof.
  unfold member_ok, init_member. intros Hbind Hok.
  destruct (assoc f.1 mems) as [[| e [|]] |]; try discriminate.
  apply bool_decide_eq_true_1 in Hok.
  destruct (eval_expr_typed k ps args env e _ Hbind Hok) as (a & -> & Ha).
  destruct a as [| | v | | |]; try discriminate.
  injection Ha as Ha. rewrite decide_True by exact Ha. eauto.
Qed.

Lemma mapM_init_member_typed (k : Kind) (ps : list (string * ParamType))
    (args : list ArgValue) (env : list (string * ArgValue))
    (mems : list (string * list Expr)) (fs : list (string * FieldType)) :
  bind_params ps args = Some env → forallb (member_ok ps mems) fs = true →
  ∃ vs, mapM (init_member NA k env mems) fs = Some vs ∧ type_of <$> vs = fs.*2.
Proof.
  intros Hbind. induction fs as [| f fs IH]; intros Hok.
  - exists []. split; reflexivity.
  - cbn in Hok. apply andb_true_iff in Hok as [Hf Hfs].
    destruct (IH Hfs) as (vs & Hvs & Hts).
    destruct (init_member_typed k ps args env mems f Hbind Hf) as (v & Hv & Hvt).
    exists (v :: vs). split.
    + apply mapM_Some_2. constructor; [exact Hv |]. apply mapM_Some_1, Hvs.
    + cbn. congruence.
Qed.

Lemma base_args_eval (k : Kind) (ps : list (string * ParamType))
    (loc : LogLocationInfo) (rest : list ArgValue) :
  arg_type <$> Aloc loc :: rest = (("loc", PLogLocationInfo) :: ps).*2 →
  "level" ∉ (("loc", PLogLocationInfo) :: ps).*1 →
  "errorCode" ∉ (("loc", PLogLocationInfo) :: ps).*1 →
  mapM (eval_expr NA k (zip (("loc", PLogLocationInfo) :: ps).*1 (Aloc loc :: rest)))
    [Evar "level"; Evar "errorCode"; Emove "loc"]
  = Some [Alevel (Kind_level k); Amember (Vsize_t (Kind_errorCode k)); Aloc loc].
Proof.
  intros Hty Hlevel Hcode. apply mapM_Some_2.
  repeat constructor; cbn [eval_expr].
  - apply lookup_name_level; assumption.
  - apply lookup_name_errorCode; assumption.
Qed.

(** A constructor that passes the check, called with arguments of its
    parameter types, yields the object [construct] describes, located
    at its first argument. *)
Lemma call_ctor_ok (fuel : nat) (k : Kind) (c : Ctor) (args : list ArgValue) :
  ctor_ok fuel k c = true →
  arg_type <$> args = (params c).*2 →
  ∃ loc rest values,
    args = Aloc loc :: rest
    ∧ call_ctor NA fuel k c args
      = Some {| dynamic_type := k;
                domain_base := DomainBase_ctor (Kind_level k) (Kind_errorCode k) loc;
                members := values |}
    ∧ type_of <$> values = (Kind_fields k).*2.
Proof.
  revert c args. induction fuel as [| fuel IH]; intros [ps ins] args Hok Hty;
    cbn [ctor_ok call_ctor params inits] in *;
    apply andb_true_iff in Hok as [Hloc Hok];
    apply bool_decide_eq_true_1 in Hloc;
    (destruct ps as [| p ps]; [discriminate |]); injection Hloc as ->;
    (destruct args as [| a0 rest]; [discriminate |]);
    injection Hty as Ha0 Hrest;
    (destruct a0 as [| loc | | | |]; try discriminate);
    assert (Hty : arg_type <$> Aloc loc :: rest = (("loc", PLogLocationInfo) :: ps).*2)
      by (cbn; f_equal; exact Hrest);
    assert (Hbind : bind_params (("loc", PLogLocationInfo) :: ps) (Aloc loc :: rest)
                    = Some (zip (("loc", PLogLocationInfo) :: ps).*1 (Aloc loc :: rest)))
      by (unfold bind_params; rewrite decide_True by exact Hty; reflexivity);
    rewrite Hbind; cbn [mbind option_bind];
    destruct (classify k ins) as [[dargs | [bargs mems]] |]; try discriminate.
  - apply andb_true_iff in Hok as [_ Hok]. discriminate.
  - exists loc, rest.
    repeat (apply andb_true_iff in Hok as [Hok ?]).
    repeat match goal with
           | H : bool_decide _ = true |- _ => apply bool_decide_eq_true_1 in H
           end.
    subst bargs.
    destruct (mapM_init_member_typed k _ _ _ mems (Kind_fields k) Hbind)
      as (vs & Hvs & Hvt); [assumption |].
    exists vs. split; [reflexivity |]. split; [| exact Hvt].
    rewrite (base_args_eval k _ loc rest Hty) by assumption.
    cbn [mbind option_bind call_base]. rewrite Hvs. reflexivity.
  - apply andb_true_iff in Hok as [Hhead Hok].
    apply bool_decide_eq_true_1 in Hhead.
    destruct (mapM (type_expr (("loc", PLogLocationInfo) :: ps)) dargs)
      as [ts |] eqn:Hts; [| discriminate].
    destruct (resolve (Kind_ctors k) ts) as [c' |] eqn:Hres; [| discriminate].
    destruct (mapM_eval_expr_typed k _ _ _ dargs ts Hbind Hts) as (dvals & Hdv & Hdt).
    rewrite Hdv. cbn [mbind option_bind]. rewrite Hdt, Hres. cbn [mbind option_bind].
    assert (Hc' : arg_type <$> dvals = (params c').*2).
    { unfold resolve in Hres. apply find_some in Hres as [_ Hres].
      apply bool_decide_eq_true_1 in Hres. congruence. }
    destruct (IH c' dvals Hok Hc') as (loc' & rest' & values & -> & Hcall & Hvt).
    assert (loc' = loc) as ->.
    { destruct dargs as [| d dargs]; [discriminate |]. injection Hhead as ->.
      apply mapM_Some_1 in Hdv. inversion Hdv as [| ? ? ? ? Hd _]; subst.
      cbn in Hd. unfold lookup_name, assoc in Hd. cbn in Hd.
      rewrite bool_decide_eq_true_2 in Hd by reflexivity. cbn in Hd. congruence. }
    exists loc, rest, values. split; [reflexivity |]. split; [exact Hcall | exact Hvt].
  - exists loc, rest.
    repeat (apply andb_true_iff in Hok as [Hok ?]).
    repeat match goal with
           | H : bool_decide _ = true |- _ => apply bool_decide_eq_true_1 in H
           end.
    subst bargs.
    destruct (mapM_init_member_typed k _ _ _ mems (Kind_fields k) Hbind)
      as (vs & Hvs & Hvt); [assumption |].
    exists vs. split; [reflexivity |]. split; [| exact Hvt].
    rewrite (base_args_eval k _ loc rest Hty) by assumption.
    cbn [mbind option_bind call_base]. rewrite Hvs. reflexivity.
Qed.

End ConstructorCalls.

(** Every constructor of the catalog passes the check. *)
Lemma Kind_ctors_ok (k : Kind) (c : Ctor) :
  c ∈ Kind_ctors k → ctor_ok (length (Kind_ctors k)) k c = true.
Proof.
  intros Hc.
  pose (P := λ k : Kind, forallb (ctor_ok (length (Kind_ctors k)) k) (Kind_ctors k)).
  assert (HP : P k = true) by (apply forallb_all_kinds; vm_compute; reflexivity).
  unfold P in HP. rewrite forallb_forall in HP.
  apply HP, list_elem_of_In, Hc.
Qed.

(** The catalog has 156 constructors. *)
Lemma Kind_ctors_count : length (concat (Kind_ctors <$> all_kinds)) = 156.
Proof. reflexivity. Qed.

(** X14: a call of any constructor of any class with arguments of the
    parameter types yields a message: the first argument is the
    location, delegations select a constructor and end, every member
    gets a value of its type, and the object is the one [construct]
    describes, with the level and the code of the class. *)
Theorem new_message_constructs (NA : sqf_type) (k : Kind) (c : Ctor)
    (args : list ArgValue) :
  c ∈ Kind_ctors k → arg_type <$> args = (params c).*2 →
  ∃ loc rest values m,
    args = Aloc loc :: rest
    ∧ new_message NA k c args = Some m
    ∧ construct k loc values = Some m
    ∧ getLevel m = Kind_level k
    ∧ getErrorCode m = Kind_errorCode k
    ∧ location (domain_base m) = loc.
Proof.
  intros Hc Hty.
  destruct (call_ctor_ok NA _ k c args (Kind_ctors_ok k c Hc) Hty)
    as (loc & rest & values & -> & Hcall & Hvt).
  exists loc, rest, values. eexists. split; [reflexivity |].
  split; [exact Hcall |].
  split; [| repeat split].
  unfold construct. rewrite decide_True by exact Hvt. reflexivity.
Qed.

Lemma new_message_constructs_witness :
  ∃ m, new_message 0%N (Runtime runtime.ExpectedSubArrayTypeMissmatch)
         (ctor [("loc", PLogLocationInfo); ("position", Parray_size_t);
                ("expected", Pmember Tsqf_type); ("got", Pmember Tsqf_type)]
               [("ExpectedSubArrayTypeMissmatch",
                 [Evar "loc"; Evar "position"; Earray1 "expected"; Evar "got"])])
         [Aloc test_sqf_3_7; Aarray_size_t [0; 2]%N; Amember (Vsqf_type 7%N);
          Amember (Vsqf_type 8%N)] = Some m
       ∧ getLevel m = loglevel.error
       ∧ getErrorCode m = 60041%N
       ∧ members m = [Vvector_size_t [0; 2]%N; Vvector_sqf_type [7%N]; Vsqf_type 8%N].
Proof.
  destruct (new_message_constructs 0%N
              (Runtime runtime.ExpectedSubArrayTypeMissmatch)
              (ctor [("loc", PLogLocationInfo); ("position", Parray_size_t);
                     ("expected", Pmember Tsqf_type); ("got", Pmember Tsqf_type)]
                    [("ExpectedSubArrayTypeMissmatch",
                      [Evar "loc"; Evar "position"; Earray1 "expected"; Evar "got"])])
              [Aloc test_sqf_3_7; Aarray_size_t [0; 2]%N; Amember (Vsqf_type 7%N);
               Amember (Vsqf_type 8%N)])
    as (loc & rest & values & m & _ & Hm & _ & Hl & Hc & _).
  - apply (bool_decide_unpack _). vm_compute. exact I.
  - reflexivity.
  - exists m. split; [exact Hm |]. split; [exact Hl |]. split; [exact Hc |].
    vm_compute in Hm. injection Hm as <-. reflexivity.
Defined.

(** X15: a constructor that is not delegating passes [level],
    [errorCode] and [std::move(loc)] to its base class, no parameter of
    it hides one of the two constants, and each member of the class has
    an initialiser with one argument of exactly the type of the
    member. *)
Theorem initialising_ctor_complete (k : Kind) (c : Ctor) (bargs : list Expr)
    (mems : list (string * list Expr)) :
  c ∈ Kind_ctors k → classify k (inits c) = Some (inr (bargs, mems)) →
  bargs = [Evar "level"; Evar "errorCode"; Emove "loc"]
  ∧ ("level" ∉ (params c).*1)
  ∧ ("errorCode" ∉ (params c).*1)
  ∧ ∀ f t, (f, t) ∈ Kind_fields k →
           ∃ e, assoc f mems = Some [e] ∧ type_expr (params c) e = Some (Pmember t).
Proof.
  intros Hc Hcl. pose proof (Kind_ctors_ok k c Hc) as Hok.
  destruct (length (Kind_ctors k)); cbn [ctor_ok] in Hok; rewrite Hcl in Hok;
    apply andb_true_iff in Hok as [_ Hok];
    repeat (apply andb_true_iff in Hok as [Hok ?]);
    repeat match goal with
           | H : bool_decide _ = true |- _ => apply bool_decide_eq_true_1 in H
           end;
    (repeat split; try assumption);
    intros f t Hf;
    match goal with H : forallb _ _ = true |- _ => rewrite forallb_forall in H;
      specialize (H (f, t) (proj1 (list_elem_of_In _ _) Hf)); unfold member_ok in H;
      cbn in H end;
    (destruct (assoc f mems) as [[| e [|]] |]; try discriminate);
    exists e; (split; [reflexivity |]);
    match goal with H : bool_decide _ = true |- _ =>
      apply bool_decide_eq_true_1 in H; exact H end.
Qed.

Lemma initialising_ctor_complete_witness :
  ∃ e, assoc "m_left_got"
         [("m_operator", [Evar "op"]); ("m_left_got", [ENA]);
          ("m_right_got", [Evar "right_got"])] = Some [e]
       ∧ type_expr [("loc", PLogLocationInfo); ("op", Pmember Tstring_view);
                    ("right_got", Pmember Tsqf_type)] e
         = Some (Pmember Tsqf_type).
Proof.
  destruct (initialising_ctor_complete
              (Runtime runtime.UnknownInputTypeCombinationBinary)
              (ctor [("loc", PLogLocationInfo); ("op", Pmember Tstring_view);
                     ("right_got", Pmember Tsqf_type)]
                    [("RuntimeBase", [Evar "level"; Evar "errorCode"; Emove "loc"]);
                     ("m_operator", [Evar "op"]); ("m_left_got", [ENA]);
                     ("m_right_got", [Evar "right_got"])])
              [Evar "level"; Evar "errorCode"; Emove "loc"]
              [("m_operator", [Evar "op"]); ("m_left_got", [ENA]);
               ("m_right_got", [Evar "right_got"])])
    as (_ & _ & _ & Hmem).
  - apply (bool_decide_unpack _). vm_compute. exact I.
  - reflexivity.
  - apply (Hmem "m_left_got" Tsqf_type).
    apply (bool_decide_unpack _). vm_compute. exact I.
Defined.

Lemma sibling_ctors_check_all (s w : Kind) : sibling_ctors_check s w = true.
Proof. apply forallb2_all_kinds. vm_compute. reflexivity. Qed.

(** X16: the constructors of a Weak class are the constructors of its
    Strong sibling, parameter for parameter and initialiser for
    initialiser, with the class name replaced in the delegations. *)
Theorem sibling_ctors (s w : Kind) :
  siblings s w = true →
  Kind_ctors w
  = (λ c, ctor (params c) (rename_inits (Kind_name s) (Kind_name w) (inits c)))
    <$> Kind_ctors s.
Proof.
  intros Hsib. pose proof (sibling_ctors_check_all s w) as Hchk.
  unfold sibling_ctors_check in Hchk. rewrite Hsib in Hchk.
  apply bool_decide_eq_true_1 in Hchk. exact Hchk.
Qed.

Lemma sibling_ctors_witness :
  params <$> Kind_ctors (Runtime runtime.ConfigEntryNotFoundWeak)
  = params <$> Kind_ctors (Runtime runtime.ConfigEntryNotFound).
Proof.
  rewrite (sibling_ctors (Runtime runtime.ConfigEntryNotFound)
             (Runtime runtime.ConfigEntryNotFoundWeak) eq_refl).
  reflexivity.
Defined.

Section ConstructorStores.

Variable NA : sqf_type.

Lemma assoc_lookup_NoDup {A} (l : list (string * A)) (i : nat) (x : string) (v : A) :
  NoDup l.*1 → l !! i = Some (x, v) → assoc x l = Some v.
Proof.
  revert i. induction l as [| [n w] l IH]; intros i Hnd Hi; [discriminate |].
  cbn in Hnd. apply NoDup_cons in Hnd as [Hn Hnd].
  unfold assoc in *. cbn. destruct i as [| i]; cbn in Hi.
  - injection Hi as -> ->. rewrite bool_decide_eq_true_2 by reflexivity. reflexivity.
  - rewrite bool_decide_eq_false_2; [exact (IH i Hnd Hi) |].
    intros ->. apply Hn. apply list_elem_of_fmap. exists (x, v).
    split; [reflexivity |]. apply list_elem_of_lookup. eauto.
Qed.

Lemma mapM_init_member_in_order (k : Kind) (xs : list string)
    (loc : LogLocationInfo) (values : list FieldValue)
    (mems : list (string * list Expr)) (fs : list (string * FieldType)) :
  NoDup ("loc" :: xs) →
  NoDup mems.*1 →
  mems.*1 = fs.*1 →
  mapM (λ m, match m.2 with [e] => var_of e | _ => None end) mems = Some xs →
  type_of <$> values = fs.*2 →
  mapM (init_member NA k (zip ("loc" :: xs) (Aloc loc :: (Amember <$> values))) mems) fs
  = Some values.
Proof.
  intros Hxs Hmems Hnames Hvars Htypes.
  apply mapM_Some_1 in Hvars.
  assert (Hlen1 : length fs = length values).
  { apply (f_equal length) in Htypes. rewrite !length_fmap in Htypes. lia. }
  assert (Hlen2 : length mems = length fs).
  { apply (f_equal length) in Hnames. rewrite !length_fmap in Hnames. lia. }
  assert (Hlen3 : length mems = length xs) by (eapply Forall2_length; exact Hvars).
  apply mapM_Some_2, Forall2_same_length_lookup_2; [exact Hlen1 |].
  intros i [f t] v Hf Hv.
  destruct (lookup_lt_is_Some_2 mems i) as [[n es] Hm].
  { rewrite Hlen2. eapply lookup_lt_Some, Hf. }
  assert (n = f) as ->.
  { apply (f_equal (λ l, l !! i)) in Hnames.
    rewrite !list_lookup_fmap, Hm, Hf in Hnames. cbn in Hnames. congruence. }
  destruct (Forall2_lookup_l _ _ _ i _ Hvars Hm) as (x & Hx & Hes). cbn in Hes.
  unfold init_member. cbn [fst snd].
  rewrite (assoc_lookup_NoDup mems i f es Hmems Hm).
  destruct es as [| e [|]]; try discriminate.
  assert (Hlook : lookup_name k (zip ("loc" :: xs) (Aloc loc :: (Amember <$> values))) x
                  = Some (Amember v)).
  { unfold lookup_name.
    rewrite (assoc_lookup_NoDup _ (S i) x (Amember v)); [reflexivity | |].
    - rewrite fst_zip; [exact Hxs |]. cbn. rewrite length_fmap. lia.
    - cbn. apply lookup_zip_Some. split; [exact Hx |].
      rewrite list_lookup_fmap, Hv. reflexivity. }
  assert (Heval : eval_expr NA k (zip ("loc" :: xs) (Aloc loc :: (Amember <$> values))) e
                  = Some (Amember v)).
  { destruct e; try discriminate; cbn in Hes; injection Hes as ->; exact Hlook. }
  rewrite Heval. rewrite decide_True; [reflexivity |].
  apply (f_equal (λ l, l !! i)) in Htypes.
  rewrite !list_lookup_fmap, Hv, Hf in Htypes. cbn in Htypes. congruence.
Qed.

Lemma ctor_ok_initialise (fuel : nat) (k : Kind) (c : Ctor) (bargs : list Expr)
    (mems : list (string * list Expr)) :
  ctor_ok fuel k c = true → classify k (inits c) = Some (inr (bargs, mems)) →
  head (params c) = Some ("loc", PLogLocationInfo)
  ∧ bargs = [Evar "level"; Evar "errorCode"; Emove "loc"]
  ∧ ("level" ∉ (params c).*1)
  ∧ ("errorCode" ∉ (params c).*1)
  ∧ forallb (member_ok (params c) mems) (Kind_fields k) = true.
Proof.
  intros Hok Hcl.
  destruct fuel; cbn [ctor_ok] in Hok; rewrite Hcl in Hok;
    repeat match goal with
           | H : _ && _ = true |- _ => apply andb_true_iff in H as [? ?]
           end;
    repeat match goal with
           | H : bool_decide _ = true |- _ => apply bool_decide_eq_true_1 in H
           end;
    auto.
Qed.

Lemma call_ctor_initialise (fuel : nat) (k : Kind) (c : Ctor) (args : list ArgValue)
    (bargs : list Expr) (mems : list (string * list Expr)) :
  classify k (inits c) = Some (inr (bargs, mems)) →
  call_ctor NA fuel k c args
  = env ← bind_params (params c) args;
    bvals ← mapM (eval_expr NA k env) bargs;
    b ← call_base bvals;
    vs ← mapM (init_member NA k env mems) (Kind_fields k);
    Some {| dynamic_type := k; domain_base := b; members := vs |}.
Proof. intros Hcl. destruct fuel; cbn [call_ctor]; rewrite Hcl; reflexivity. Qed.

Lemma arg_type_members (values : list FieldValue) :
  arg_type <$> (Amember <$> values) = Pmember <$> (type_of <$> values).
Proof. induction values as [| v vs IH]; [reflexivity |]. cbn. f_equal. exact IH. Qed.

Lemma Pmember_fmap_inj (l1 l2 : list FieldType) :
  Pmember <$> l1 = Pmember <$> l2 → l1 = l2.
Proof.
  revert l2. induction l1 as [| t l1 IH]; intros [| t' l2] Heq;
    try discriminate; [reflexivity |].
  injection Heq as -> Heq. f_equal. apply IH, Heq.
Qed.

(** A constructor that stores in order builds the object of
    [construct] from the location and the member values it is given. *)
Lemma call_ctor_in_order (fuel : nat) (k : Kind) (c : Ctor)
    (loc : LogLocationInfo) (values : list FieldValue) :
  ctor_ok fuel k c = true → stores_in_order k c = true →
  call_ctor NA fuel k c (Aloc loc :: (Amember <$> values)) = construct k loc values.
Proof.
  intros Hok Hord. unfold stores_in_order in Hord.
  destruct (classify k (inits c)) as [[dargs | [bargs mems]] |] eqn:Hcl;
    try discriminate.
  destruct (ctor_ok_initialise fuel k c bargs mems Hok Hcl)
    as (Hhead & -> & Hlevel & Hcode & _).
  repeat (apply andb_true_iff in Hord as [Hord ?]).
  repeat match goal with
         | H : bool_decide _ = true |- _ => apply bool_decide_eq_true_1 in H
         end.
  rename Hord into Hnd.
  rewrite (call_ctor_initialise fuel k c _ _ mems Hcl).
  destruct c as [ps ins]. cbn [params inits] in *.
  destruct ps as [| p ps]; [discriminate |]. injection Hhead as ->.
  match goal with
  | H : (_ :: _).*2 = _ :: _ |- _ => cbn in H; injection H as Hps
  end.
  match goal with
  | H : mapM _ mems = Some _ |- _ => cbn in H; rename H into Hvars
  end.
  unfold bind_params, construct.
  destruct (decide (type_of <$> values = (Kind_fields k).*2)) as [Hty | Hty].
  - assert (Hargs : arg_type <$> Aloc loc :: (Amember <$> values)
                    = (("loc", PLogLocationInfo) :: ps).*2).
    { cbn. f_equal. fold (fmap (M:=list) arg_type (Amember <$> values)).
      rewrite arg_type_members, Hty. symmetry. exact Hps. }
    rewrite decide_True by exact Hargs. cbn [mbind option_bind].
    rewrite (base_args_eval NA k ps loc (Amember <$> values) Hargs Hlevel Hcode).
    cbn [mbind option_bind call_base].
    change ((("loc", PLogLocationInfo) :: ps).*1) with ("loc" :: ps.*1).
    rewrite (mapM_init_member_in_order k ps.*1 loc values mems (Kind_fields k))
      by assumption.
    reflexivity.
  - rewrite decide_False; [reflexivity |].
    intros Habs. cbn in Habs. injection Habs as Habs. apply Hty.
    fold (fmap (M:=list) arg_type (Amember <$> values)) in Habs.
    fold (fmap (M:=list) snd ps) in Habs.
    rewrite arg_type_members in Habs. apply Pmember_fmap_inj. congruence.
Qed.

End ConstructorStores.

(** X17: every class but [UnknownInputTypeCombinationBinary] has a
    constructor that takes, after the location, the values of the
    members in declaration order and stores them unchanged, whatever
    they are: a call builds exactly the object of [construct], and fails
    only on values that are not of the member types. *)
Theorem principal_ctor_stores (NA : sqf_type) (k : Kind) :
  k ≠ Runtime runtime.UnknownInputTypeCombinationBinary →
  ∃ c, principal_ctor k = Some c
       ∧ c ∈ Kind_ctors k
       ∧ (params c).*2 = PLogLocationInfo :: (Pmember <$> (Kind_fields k).*2)
       ∧ ∀ loc values,
           new_message NA k c (Aloc loc :: (Amember <$> values))
           = construct k loc values.
Proof.
  intros Hk.
  pose (P := λ k : Kind,
    bool_decide (k = Runtime runtime.UnknownInputTypeCombinationBinary)
    || bool_decide (is_Some (principal_ctor k))).
  assert (HP : P k = true) by (apply forallb_all_kinds; vm_compute; reflexivity).
  unfold P in HP. rewrite (bool_decide_eq_false_2 _ Hk) in HP. cbn in HP.
  apply bool_decide_eq_true_1 in HP as [c Hc].
  exists c. split; [exact Hc |].
  unfold principal_ctor in Hc. apply find_some in Hc as [Hin Hord].
  apply list_elem_of_In in Hin. split; [exact Hin |]. split.
  - unfold stores_in_order in Hord.
    destruct (classify k (inits c)) as [[? | [? ?]] |]; try discriminate.
    repeat match goal with
           | H : _ && _ = true |- _ => apply andb_true_iff in H as [? ?]
           end.
    repeat match goal with
           | H : bool_decide _ = true |- _ => apply bool_decide_eq_true_1 in H
           end.
    assumption.
  - intros loc values. unfold new_message.
    apply call_ctor_in_order; [apply Kind_ctors_ok, Hin | exact Hord].
Qed.

Lemma principal_ctor_stores_witness :
  ∃ c, principal_ctor (Runtime runtime.ExpectedSubArrayTypeMissmatch) = Some c
       ∧ new_message 0%N (Runtime runtime.ExpectedSubArrayTypeMissmatch) c
           [Aloc test_sqf_3_7; Amember (Vvector_size_t [1; 2; 3]%N);
            Amember (Vvector_sqf_type []); Amember (Vsqf_type 4%N)]
         = Some {| dynamic_type := Runtime runtime.ExpectedSubArrayTypeMissmatch;
                   domain_base := DomainBase_ctor loglevel.error 60041 test_sqf_3_7;
                   members := [Vvector_size_t [1; 2; 3]%N; Vvector_sqf_type [];
                               Vsqf_type 4%N] |}.
Proof.
  destruct (principal_ctor_stores 0%N (Runtime runtime.ExpectedSubArrayTypeMissmatch))
    as (c & Hc & _ & _ & Hstore); [discriminate |].
  exists c. split; [exact Hc |].
  apply (Hstore test_sqf_3_7
           [Vvector_size_t [1; 2; 3]%N; Vvector_sqf_type []; Vsqf_type 4%N]).
Defined.

Ltac two_classes H :=
  apply elem_of_cons in H as [-> | H];
  [| apply elem_of_cons in H as [-> | H];
     [| apply elem_of_nil in H; contradiction]].

(** X18: the short overloads fill in the rest: the three-parameter
    constructor of the array size classes uses [expected] as minimum
    and maximum, the overloads with one expected type store a list of
    that one type, the [std::array] overloads store the elements of the
    array in order, and the constructor of
    [UnknownInputTypeCombinationBinary] without left type stores [NA];
    its other constructor stores operator, left and right type. *)
Theorem short_overloads (NA : sqf_type) (loc : LogLocationInfo) (n m : N)
    (t g : sqf_type) (ts : list sqf_type) (ns : list N) (ss : list string)
    (s op : string) :
  (∀ k, k ∈ [Runtime runtime.ExpectedArraySizeMissmatch;
             Runtime runtime.ExpectedArraySizeMissmatchWeak] →
     new_message_at NA k 0 [Aloc loc; Amember (Vsize_t n); Amember (Vsize_t m)]
     = construct k loc [Vsize_t n; Vsize_t n; Vsize_t m])
  ∧ (∀ k, k ∈ [Runtime runtime.ExpectedArrayTypeMissmatch;
               Runtime runtime.ExpectedArrayTypeMissmatchWeak] →
       new_message_at NA k 1
         [Aloc loc; Amember (Vsize_t n); Amember (Vsqf_type t); Amember (Vsqf_type g)]
       = construct k loc [Vsize_t n; Vvector_sqf_type [t]; Vsqf_type g]
       ∧ new_message_at NA k 2
           [Aloc loc; Amember (Vsize_t n); Aarray_sqf_type ts; Amember (Vsqf_type g)]
         = construct k loc [Vsize_t n; Vvector_sqf_type ts; Vsqf_type g])
  ∧ (∀ k, k ∈ [Runtime runtime.ExpectedSubArrayTypeMissmatch;
               Runtime runtime.ExpectedSubArrayTypeMissmatchWeak] →
       new_message_at NA k 1
         [Aloc loc; Aarray_size_t ns; Amember (Vsqf_type t); Amember (Vsqf_type g)]
       = construct k loc [Vvector_size_t ns; Vvector_sqf_type [t]; Vsqf_type g]
       ∧ new_message_at NA k 2
           [Aloc loc; Aarray_size_t ns; Aarray_sqf_type ts; Amember (Vsqf_type g)]
         = construct k loc [Vvector_size_t ns; Vvector_sqf_type ts; Vsqf_type g])
  ∧ (∀ k, k ∈ [Runtime runtime.ConfigEntryNotFound;
               Runtime runtime.ConfigEntryNotFoundWeak] →
       new_message_at NA k 1 [Aloc loc; Aarray_string ss; Amember (Vstring s)]
       = construct k loc [Vvector_string ss; Vstring s])
  ∧ new_message_at NA (Runtime runtime.UnknownInputTypeCombinationBinary) 1
      [Aloc loc; Amember (Vstring_view op); Amember (Vsqf_type g)]
    = construct (Runtime runtime.UnknownInputTypeCombinationBinary) loc
        [Vstring_view op; Vsqf_type NA; Vsqf_type g]
  ∧ new_message_at NA (Runtime runtime.UnknownInputTypeCombinationBinary) 0
      [Aloc loc; Amember (Vsqf_type t); Amember (Vstring_view op);
       Amember (Vsqf_type g)]
    = construct (Runtime runtime.UnknownInputTypeCombinationBinary) loc
        [Vstring_view op; Vsqf_type t; Vsqf_type g].
Proof.
  split; [intros k Hk; two_classes Hk; reflexivity |].
  split; [intros k Hk; two_classes Hk; split; reflexivity |].
  split; [intros k Hk; two_classes Hk; split; reflexivity |].
  split; [intros k Hk; two_classes Hk; reflexivity |].
  split; reflexivity.
Qed.

Lemma short_overloads_witness :
  new_message_at 0%N (Runtime runtime.ExpectedArraySizeMissmatchWeak) 0
    [Aloc test_sqf_3_7; Amember (Vsize_t 2); Amember (Vsize_t 5)]
  = ExpectedArraySizeMissmatchWeak_ctor test_sqf_3_7 2 5.
Proof.
  destruct (short_overloads 0%N test_sqf_3_7 2 5 0%N 0%N [] [] [] "" "")
    as (Hsize & _).
  apply (Hsize (Runtime runtime.ExpectedArraySizeMissmatchWeak)).
  apply (bool_decide_unpack _). vm_compute. exact I.
Defined.
